(** * goplus/dql: lazy node sets and value sets over an HTML tree

    A shallow embedding of the packages [util] and [html] of the repository.
    Go's push iterators ([iter.Seq[T]], a function that receives a [yield]
    callback) are embedded as functions that receive a callback together with
    the state of the variables the callback has captured, and hand the final
    state back.  A Go panic (calling a nil function value, the [panic] of
    [Source]) is the outcome [Panic]. *)

From Stdlib Require Import List String Bool Arith Lia Permutation.
Import ListNotations.
Local Open Scope string_scope.
Local Open Scope list_scope.

(* ------------------------------------------------------------------------- *)
(** ** Outcomes of a call: normal return or panic *)

Inductive Res (A : Type) : Type :=
| Ok (a : A)
| Panic.
Arguments Ok {A} a.
Arguments Panic {A}.

Definition bind {A B : Type} (m : Res A) (k : A -> Res B) : Res B :=
  match m with
  | Ok a => k a
  | Panic => Panic
  end.

Declare Scope go_scope.
Delimit Scope go_scope with go.
Notation "x <- m ;; k" := (bind m (fun x => k))
  (at level 100, m at next level, right associativity) : go_scope.
Notation "' p <- m ;; k" := (bind m (fun p => k))
  (at level 100, p pattern, m at next level, right associativity) : go_scope.
Local Open Scope go_scope.

(* ------------------------------------------------------------------------- *)
(** ** iter.Seq *)

(** [func(T) bool] closing over variables whose joint state is [S]. *)
Definition Yield (T S : Type) : Type := T -> S -> Res (bool * S).

(** [iter.Seq[T] = func(yield func(T) bool)].  The sequence is run with a
    callback and the initial state of the callback's variables; it returns
    the state in which it leaves them. *)
Definition Seq (T : Type) : Type := forall S : Type, Yield T S -> S -> Res S.

(** The nil function value (the zero value of a [Data] field that a struct
    literal leaves out): calling it panics. *)
Definition nilSeq {T : Type} : Seq T := fun S _ _ => Panic.

(** [for _, x := range l { if !yield(x) { return } }] *)
Fixpoint feed {T S : Type} (l : list T) (yield : Yield T S) (s : S) : Res S :=
  match l with
  | [] => Ok s
  | x :: l' =>
      '(continue, s1) <- yield x s ;;
      if continue : bool then feed l' yield s1 else Ok s1
  end.

(** The same loop, telling whether it ran to its end ([true]) or was stopped
    by the callback ([false]). *)
Fixpoint feedb {T S : Type} (l : list T) (yield : Yield T S) (s : S)
  : Res (bool * S) :=
  match l with
  | [] => Ok (true, s)
  | x :: l' =>
      '(continue, s1) <- yield x s ;;
      if continue : bool then feedb l' yield s1 else Ok (false, s1)
  end.

(** A slice as a sequence ([slices.Values]). *)
Definition fromList {T : Type} (l : list T) : Seq T :=
  fun S yield s => feed l yield s.

(** [iter.Seq2[K, V] = func(yield func(K, V) bool)]. *)
Definition Seq2 (K V : Type) : Type :=
  forall S : Type, (K -> V -> S -> Res (bool * S)) -> S -> Res S.

(** A sequence that calls [yield] with the items of [l] and, when it has
    been told to continue after the last of them, panics. *)
Definition panics_after {T : Type} (l : list T) : Seq T :=
  fun S yield s =>
    '(continue, s1) <- feedb l yield s ;;
    if continue : bool then Panic else Ok s1.

(* ------------------------------------------------------------------------- *)
(** ** error values *)

(** The [error] values that occur.  Every [errors.New] call makes a value of
    its own, so the sentinels of package [html] and of package [util] are
    four different values although their texts agree pairwise.  [external]
    stands for the errors of the parser, of the stream opener and of
    callers. *)
Inductive error : Type :=
| html_ErrNotFound
| html_ErrMultiEntities
| util_ErrNotFound
| util_ErrMultiEntities
| external (text : string).

(** [err.Error()] *)
Definition Error (e : error) : string :=
  match e with
  | html_ErrNotFound | util_ErrNotFound => "entity not found"
  | html_ErrMultiEntities | util_ErrMultiEntities => "too many entities found"
  | external text => text
  end.

(** The zero value of a type (what a named result holds before it is
    assigned, and what a struct literal gives a field it leaves out). *)
Class GoZero (T : Type) : Type := zero : T.
#[export] Instance string_zero : GoZero string := "".
#[export] Instance error_zero : GoZero (option error) := None.

(* ------------------------------------------------------------------------- *)
(** ** golang.org/x/net/html: the node accessors the queries use *)

Module xhtml.

Inductive NodeType : Type :=
| ErrorNode | TextNode | DocumentNode | ElementNode
| CommentNode | DoctypeNode | RawNode.

Definition NodeType_eqb (a b : NodeType) : bool :=
  match a, b with
  | ErrorNode, ErrorNode | TextNode, TextNode | DocumentNode, DocumentNode
  | ElementNode, ElementNode | CommentNode, CommentNode
  | DoctypeNode, DoctypeNode | RawNode, RawNode => true
  | _, _ => false
  end.

Record Attribute : Type := mkAttribute {
  Namespace : string;
  Key : string;
  Val : string
}.

(** Modelled from the spec: the node accessor surface of the external tree
    representation (node kind, tag name, ordered attribute list, ordered list
    of direct children); the linked [FirstChild]/[NextSibling] chain of
    [html.Node] is the list [Children]. *)
Unset Elimination Schemes.
Inductive Node : Type := mkNode {
  Type_ : NodeType;
  Data : string;
  Attr : list Attribute;
  Children : list Node
}.
Set Elimination Schemes.

(** [Node.ChildNodes] of the external package, an iterator over the direct
    children in their order:
    [for c := n.FirstChild; c != nil; c = c.NextSibling { if !yield(c) { return } }] *)
Definition ChildNodes (n : Node) : Seq Node :=
  fun S yield s => feed (Children n) yield s.

(** [Node.descendants] of the external package, the depth-first traversal
    below a node:
    [for c := range n.ChildNodes() {
       if !yield(c) || !c.descendants(yield) { return false } }
     return true] *)
Fixpoint descendants_rec {S : Type} (n : Node) (yield : Yield Node S) (s : S)
  : Res (bool * S) :=
  (fix loop (cs : list Node) (s : S) : Res (bool * S) :=
     match cs with
     | [] => Ok (true, s)
     | c :: cs' =>
         '(ok, s1) <- yield c s ;;
         if ok : bool then
           '(ok', s2) <- descendants_rec c yield s1 ;;
           if ok' : bool then loop cs' s2 else Ok (false, s2)
         else Ok (false, s1)
     end) (Children n) s.

(** [Node.Descendants] *)
Definition Descendants (n : Node) : Seq Node :=
  fun S yield s => '(_, s') <- descendants_rec n yield s ;; Ok s'.

End xhtml.

(* ------------------------------------------------------------------------- *)
(** ** package util *)

Module util.

Definition ErrNotFound : error := util_ErrNotFound.
Definition ErrMultiEntities : error := util_ErrMultiEntities.

Definition NopIter {T : Type} : Seq T := fun S yield s => Ok s.

Definition NopIter2 {T : Type} : Seq2 string T := fun S yield s => Ok s.

(** [type Value[T any] = struct { X_0 T; X_1 error }] *)
Record Value (T : Type) : Type := mkValue {
  X_0 : T;
  X_1 : option error
}.
Arguments mkValue {T} _ _.
Arguments X_0 {T} _.
Arguments X_1 {T} _.

Module ValueSet.

Record t (T : Type) : Type := mk {
  Data : Seq (Value T);
  Err : option error
}.
Arguments mk {T} _ _.
Arguments Data {T} _ _ _ _.
Arguments Err {T} _.

Definition XGo_Enum {T : Type} (p : t T) : Seq (Value T) :=
  match Err p with
  | Some _ => NopIter
  | None => Data p
  end.

(** The closure of [XGo_0]; its variables are the results [(val, err)]. *)
Definition XGo_0_yield {T : Type} : Yield (Value T) (T * option error) :=
  fun v _ => Ok (false, (X_0 v, X_1 v)).

Definition XGo_0 {T : Type} `{GoZero T} (p : t T) : Res (T * option error) :=
  match Err p with
  | Some e => Ok (zero, Some e)
  | None => Data p _ XGo_0_yield (zero, Some ErrNotFound)
  end.

(** The closure of [XGo_1]; its variables are [first] and [(val, err)]. *)
Definition XGo_1_yield {T : Type}
  : Yield (Value T) (bool * (T * option error)) :=
  fun v '(first, (val, err)) =>
    if first : bool then Ok (true, (false, (X_0 v, X_1 v)))
    else Ok (false, (first, (val, Some ErrMultiEntities))).

Definition XGo_1 {T : Type} `{GoZero T} (p : t T) : Res (T * option error) :=
  match Err p with
  | Some e => Ok (zero, Some e)
  | None =>
      '(_, r) <- Data p _ XGo_1_yield (true, (zero, Some ErrNotFound)) ;;
      Ok r
  end.

End ValueSet.

End util.

(* ------------------------------------------------------------------------- *)
(** ** package html *)

Module html.

Definition ErrNotFound : error := html_ErrNotFound.
Definition ErrMultiEntities : error := html_ErrMultiEntities.

Definition nopIter {T : Type} : Seq T := fun S yield s => Ok s.

(** [type Value = struct { X_0 string; X_1 error }]: an alias of the struct
    type that [util.Value[string]] is an alias of. *)
Definition Value : Type := util.Value string.

(** [type Node = html.Node]; a [*Node] result may be nil. *)
Definition Node : Type := xhtml.Node.
#[export] Instance Node_zero : GoZero (option Node) := None.

Module ValueSet.

Record t : Type := mk {
  Data : Seq Value;
  Err : option error
}.

Definition XGo_Enum (p : t) : Seq Value :=
  match Err p with
  | Some _ => nopIter
  | None => Data p
  end.

(** The closure of [XGo_0]; its variables are the results [(val, err)]. *)
Definition XGo_0_yield : Yield Value (string * option error) :=
  fun v _ => Ok (false, (util.X_0 v, util.X_1 v)).

Definition XGo_0 (p : t) : Res (string * option error) :=
  match Err p with
  | Some e => Ok ("", Some e)
  | None => Data p _ XGo_0_yield (zero, Some ErrNotFound)
  end.

(** The closure of [XGo_1]; its variables are [first] and [(val, err)]. *)
Definition XGo_1_yield : Yield Value (bool * (string * option error)) :=
  fun v '(first, (val, err)) =>
    if first : bool then Ok (true, (false, (util.X_0 v, util.X_1 v)))
    else Ok (false, (first, (val, Some ErrMultiEntities))).

Definition XGo_1 (p : t) : Res (string * option error) :=
  match Err p with
  | Some e => Ok ("", Some e)
  | None =>
      '(_, r) <- Data p _ XGo_1_yield (true, (zero, Some ErrNotFound)) ;;
      Ok r
  end.

End ValueSet.

Module NodeSet.

Record t : Type := mk {
  Data : Seq Node;
  Err : option error
}.

Definition XGo_Enum (p : t) : Seq Node :=
  match Err p with
  | Some _ => nopIter
  | None => Data p
  end.

(** The closure that [XGo_Node] hands to [p.Data]. *)
Definition XGo_Node_yield {S : Type} (name : string) (yield : Yield Node S)
  : Yield Node S :=
  fun node s =>
    if xhtml.NodeType_eqb (xhtml.Type_ node) xhtml.ElementNode
       && (xhtml.Data node =? name)%string
    then yield node s
    else Ok (true, s).

Definition XGo_Node (p : t) (name : string) : t :=
  match Err p with
  | Some _ => p
  | None =>
      mk (fun S yield s => Data p S (XGo_Node_yield name yield) s) None
  end.

(** [func(c *Node) bool { ok = yield(c); return ok }], shared by [XGo_Child]
    and [XGo_Any]; its variable is [ok], next to those of [yield]. *)
Definition set_ok {S : Type} (yield : Yield Node S) : Yield Node (bool * S) :=
  fun c '(_, s) => '(ok, s1) <- yield c s ;; Ok (ok, (ok, s1)).

(** The closure that [XGo_Child] hands to [p.Data]. *)
Definition XGo_Child_yield {S : Type} (yield : Yield Node S)
  : Yield Node (bool * S) :=
  fun node st =>
    '(ok, s1) <- xhtml.ChildNodes node _ (set_ok yield) st ;;
    Ok (ok, (ok, s1)).

Definition XGo_Child (p : t) : t :=
  match Err p with
  | Some _ => p
  | None =>
      mk (fun S yield s =>
            '(_, s1) <- Data p _ (XGo_Child_yield yield) (true, s) ;;
            Ok s1)
         None
  end.

(** The closure that [XGo_Any] hands to [p.Data]. *)
Definition XGo_Any_yield {S : Type} (yield : Yield Node S)
  : Yield Node (bool * S) :=
  fun node '(_, s) =>
    '(ok, s1) <- yield node s ;;
    '(ok, s2) <- (if ok : bool
                  then xhtml.Descendants node _ (set_ok yield) (ok, s1)
                  else Ok (ok, s1)) ;;
    Ok (ok, (ok, s2)).

Definition XGo_Any (p : t) : t :=
  match Err p with
  | Some _ => p
  | None =>
      mk (fun S yield s =>
            '(_, s1) <- Data p _ (XGo_Any_yield yield) (true, s) ;;
            Ok s1)
         None
  end.

(** [for _, attr := range node.Attr { if attr.Key == name { return yield(...) } }]
    followed by [yield(Value{X_1: ErrNotFound}); return true]. *)
Fixpoint range_Attr {S : Type} (name : string) (attrs : list xhtml.Attribute)
  (yield : Yield Value S) (s : S) : Res (bool * S) :=
  match attrs with
  | attr :: rest =>
      if (xhtml.Key attr =? name)%string
      then yield (util.mkValue (xhtml.Val attr) None) s
      else range_Attr name rest yield s
  | [] =>
      '(_, s1) <- yield (util.mkValue zero (Some ErrNotFound)) s ;;
      Ok (true, s1)
  end.

(** The closure that [XGo_Attr] hands to [p.Data]. *)
Definition XGo_Attr_yield {S : Type} (name : string) (yield : Yield Value S)
  : Yield Node S :=
  fun node s => range_Attr name (xhtml.Attr node) yield s.

Definition XGo_Attr (p : t) (name : string) : ValueSet.t :=
  match Err p with
  | Some e => ValueSet.mk nilSeq (Some e)
  | None =>
      ValueSet.mk
        (fun S yield s => Data p S (XGo_Attr_yield name yield) s) None
  end.

(** The closure of [XGo_0]; its variables are the results [(val, err)]. *)
Definition XGo_0_yield : Yield Node (option Node * option error) :=
  fun n _ => Ok (false, (Some n, None)).

Definition XGo_0 (p : t) : Res (option Node * option error) :=
  match Err p with
  | Some e => Ok (None, Some e)
  | None => Data p _ XGo_0_yield (zero, Some ErrNotFound)
  end.

(** The closure of [XGo_1]; its variables are [first] and [(val, err)]. *)
Definition XGo_1_yield : Yield Node (bool * (option Node * option error)) :=
  fun n '(first, (val, err)) =>
    if first : bool then Ok (true, (false, (Some n, None)))
    else Ok (false, (first, (val, Some ErrMultiEntities))).

Definition XGo_1 (p : t) : Res (option Node * option error) :=
  match Err p with
  | Some e => Ok (None, Some e)
  | None =>
      '(_, r) <- Data p _ XGo_1_yield (true, (zero, Some ErrNotFound)) ;;
      Ok r
  end.

End NodeSet.

Section Construction.

(** The collaborators of the constructors: [io.Reader] values,
    [html.Parse], [stream.Open] and [bytes.NewReader]. *)
Variable Reader : Type.
Variable html_Parse : Reader -> Node + error.
Variable stream_Open : string -> Reader + error.
Variable bytes_NewReader : list Byte.byte -> Reader.

Definition New (r : Reader) : NodeSet.t :=
  match html_Parse r with
  | inr err => NodeSet.mk nilSeq (Some err)
  | inl doc =>
      NodeSet.mk (fun S yield s => '(_, s1) <- yield doc s ;; Ok s1) None
  end.

(** The dynamic type and value of an [any]. *)
Inductive any : Type :=
| any_string (v : string)
| any_bytes (v : list Byte.byte)
| any_Reader (v : Reader)
| any_Seq (v : Seq Node)
| any_NodeSet (v : NodeSet.t)
| any_other (type_name : string).

Definition Source (r : any) : Res NodeSet.t :=
  match r with
  | any_string v =>
      match stream_Open v with
      | inr err => Ok (NodeSet.mk nilSeq (Some err))
      | inl f => Ok (New f)
      end
  | any_bytes v => let r := bytes_NewReader v in Ok (New r)
  | any_Reader v => Ok (New v)
  | any_Seq v => Ok (NodeSet.mk v None)
  | any_NodeSet v => Ok v
  | any_other _ => Panic
  end.

End Construction.

Arguments New {Reader} html_Parse r.
Arguments Source {Reader} html_Parse stream_Open bytes_NewReader r.
Arguments any_string {Reader} v.
Arguments any_bytes {Reader} v.
Arguments any_Reader {Reader} v.
Arguments any_Seq {Reader} v.
Arguments any_NodeSet {Reader} v.
Arguments any_other {Reader} type_name.

End html.

(* ------------------------------------------------------------------------- *)
(** ** Sequences as the specification describes them *)

(** The contract of a lazy sequence with the items [l]: run with any
    callback, it calls the callback once per item, in the order of [l], and
    returns as soon as the callback has answered [false]. *)
Definition Produces {T : Type} (d : Seq T) (l : list T) : Prop :=
  forall (S : Type) (yield : Yield T S) (s : S), d S yield s = feed l yield s.

(** A callback that also records every item it is called with. *)
Definition logged {T S : Type} (yield : Yield T S) : Yield T (list T * S) :=
  fun x '(log, s) => '(continue, s1) <- yield x s ;; Ok (continue, (log ++ [x], s1)).

(** The items a sequence calls [yield] with, in the order of the calls. *)
Definition trace {T S : Type} (d : Seq T) (yield : Yield T S) (s : S)
  : Res (list T * S) :=
  d _ (logged yield) ([], s).

(** A callback of pure code: it neither panics nor runs a sequence. *)
Definition pure_yield {T S : Type} (f : T -> S -> bool * S) : Yield T S :=
  fun x s => Ok (f x s).

(** The items of a sequence that is enumerated to its end. *)
Definition collect {T : Type} (d : Seq T) : Res (list T) :=
  d _ (pure_yield (fun x acc => (true, acc ++ [x]))) [].

(** The callback that stops at once. *)
Definition stop_now {T : Type} : Yield T unit := fun _ s => Ok (false, s).

(** Document order below a node: every child, each followed by its own
    descendants. *)
Fixpoint descendants (n : xhtml.Node) : list xhtml.Node :=
  match n with
  | xhtml.mkNode _ _ _ cs => flat_map (fun c => c :: descendants c) cs
  end.

Definition self_and_descendants (n : xhtml.Node) : list xhtml.Node :=
  n :: descendants n.


Section ChildPaths.

Variable subtree_paths : xhtml.Node -> list (list nat).


End ChildPaths.


(** The number of nodes of a tree. *)
Fixpoint size (n : xhtml.Node) : nat :=
  match n with
  | xhtml.mkNode _ _ _ cs => S (list_sum (map size cs))
  end.

Definition is_element (name : string) (n : xhtml.Node) : bool :=
  xhtml.NodeType_eqb (xhtml.Type_ n) xhtml.ElementNode
  && (xhtml.Data n =? name)%string.

(** The attribute lookup of the specification: the value of the first
    attribute whose key is [name], the error NotFound when there is none. *)
Definition attribute (name : string) (n : xhtml.Node) : html.Value :=
  match find (fun a => (xhtml.Key a =? name)%string) (xhtml.Attr n) with
  | Some a => util.mkValue (xhtml.Val a) None
  | None => util.mkValue "" (Some html.ErrNotFound)
  end.

(** A [Value] holds a value or an error: with an error set, the value is the
    zero value. *)
Definition exactly_one (v : html.Value) : Prop :=
  util.X_1 v = None \/ (util.X_1 v = Some html.ErrNotFound /\ util.X_0 v = "").

(** The items a contract-abiding sequence with the items [l] hands to the
    callback [f]: those up to and with the first one at which [f] answers
    [false]. *)
Fixpoint delivered {T S : Type} (l : list T) (f : T -> S -> bool * S) (s : S)
  : list T :=
  match l with
  | [] => []
  | x :: l' =>
      let (continue, s1) := f x s in
      x :: (if continue : bool then delivered l' f s1 else [])
  end.

(** What a successful or failed parse becomes: a set in the failed state
    carrying the parser's error, or a set in the ok state whose sequence has
    the root as its one item. *)
Definition wraps (parsed : xhtml.Node + error) (ns : html.NodeSet.t) : Prop :=
  match parsed with
  | inr err => html.NodeSet.Err ns = Some err
  | inl doc =>
      html.NodeSet.Err ns = None /\ Produces (html.NodeSet.Data ns) [doc]
  end.

(** A set in the failed state with the terminal error [e]: both reducers
    return [e] and the enumeration is empty. *)
Definition failed_with (e : error) (ns : html.NodeSet.t) : Prop :=
  html.NodeSet.Err ns = Some e
  /\ html.NodeSet.XGo_0 ns = Ok (None, Some e)
  /\ html.NodeSet.XGo_1 ns = Ok (None, Some e)
  /\ Produces (html.NodeSet.XGo_Enum ns) [].

Definition values_failed_with (e : error) (vs : html.ValueSet.t) : Prop :=
  html.ValueSet.Err vs = Some e
  /\ html.ValueSet.XGo_0 vs = Ok ("", Some e)
  /\ html.ValueSet.XGo_1 vs = Ok ("", Some e)
  /\ Produces (html.ValueSet.XGo_Enum vs) [].

(** A small document: [<body><p class=a id=b>hi</p><a href=u></a></body>]. *)
Definition element (tag : string) (attrs : list xhtml.Attribute)
  (children : list xhtml.Node) : xhtml.Node :=
  xhtml.mkNode xhtml.ElementNode tag attrs children.

Definition text (data : string) : xhtml.Node :=
  xhtml.mkNode xhtml.TextNode data [] [].

Definition node_p : xhtml.Node :=
  element "p" [xhtml.mkAttribute "" "class" "a"; xhtml.mkAttribute "" "id" "b"]
    [text "hi"].

Definition node_a : xhtml.Node :=
  element "a" [xhtml.mkAttribute "" "href" "u"] [].

Definition node_i : xhtml.Node :=
  element "i" [xhtml.mkAttribute "" "id" "x"; xhtml.mkAttribute "" "id" "y"] [].

Definition node_body : xhtml.Node := element "body" [] [node_p; node_a].

Definition sample_doc : xhtml.Node :=
  xhtml.mkNode xhtml.DocumentNode "" [] [element "html" [] [node_body]].

(** A parser that has the document [doc] for every input. *)
Definition parses_to (doc : xhtml.Node) : unit -> xhtml.Node + error :=
  fun _ => inl doc.

(** [New(r).XGo_Any().XGo_Node("body").XGo_Child()]: the children of the
    body of the sample document. *)
Definition body_children : html.NodeSet.t :=
  html.NodeSet.XGo_Child
    (html.NodeSet.XGo_Node
       (html.NodeSet.XGo_Any (html.New (parses_to sample_doc) tt)) "body").

(** A chain of navigation combinators, applied to a starting set. *)
Inductive navigation : Type :=
| nav_start
| nav_Node (q : navigation) (name : string)
| nav_Child (q : navigation)
| nav_Any (q : navigation).

Fixpoint navigate (start : html.NodeSet.t) (q : navigation) : html.NodeSet.t :=
  match q with
  | nav_start => start
  | nav_Node q' name => html.NodeSet.XGo_Node (navigate start q') name
  | nav_Child q' => html.NodeSet.XGo_Child (navigate start q')
  | nav_Any q' => html.NodeSet.XGo_Any (navigate start q')
  end.

(** The nodes the specification gives the chain [q] over the nodes [l]. *)
Fixpoint navigated (l : list xhtml.Node) (q : navigation) : list xhtml.Node :=
  match q with
  | nav_start => l
  | nav_Node q' name => filter (is_element name) (navigated l q')
  | nav_Child q' => flat_map xhtml.Children (navigated l q')
  | nav_Any q' => flat_map self_and_descendants (navigated l q')
  end.

(** What an item contributes to the result of a reducer: a [Value] its two
    fields, a node itself and no error. *)
Definition of_value {T : Type} (v : util.Value T) : T * option error :=
  (util.X_0 v, util.X_1 v).

Definition of_node (n : html.Node) : option html.Node * option error :=
  (Some n, None).

(** First-or-error over the items [l]: [none] when there is no item, what
    the first item carries otherwise. *)
Definition first_or_error {T R : Type} (none : R * option error)
  (result : T -> R * option error) (l : list T) : R * option error :=
  match l with
  | [] => none
  | x :: _ => result x
  end.

(** First-and-unique-or-error over the items [l]: [none] when there is no
    item, what the only item carries when there is one, the error [tooMany]
    when there are two or more (the value slot then still holds the value of
    the first item). *)
Definition first_and_unique {T R : Type} (none : R * option error)
  (tooMany : error) (result : T -> R * option error) (l : list T)
  : R * option error :=
  match l with
  | [] => none
  | [x] => result x
  | x :: _ :: _ => (fst (result x), Some tooMany)
  end.

(** [html.ValueSet] read as [util.ValueSet[string]]: the same fields. *)
Definition as_util (p : html.ValueSet.t) : util.ValueSet.t string :=
  util.ValueSet.mk (html.ValueSet.Data p) (html.ValueSet.Err p).

(** Whether the node has an attribute with the key [name]. *)
Definition has_attribute (name : string) (n : xhtml.Node) : bool :=
  existsb (fun a => (xhtml.Key a =? name)%string) (xhtml.Attr n).

(** The values the sequence of [XGo_Attr] hands to the callback [f] over the
    nodes [l]: it goes on after a node without the attribute whatever [f]
    answers, and stops at a node with the attribute when [f] answers
    [false]. *)
Fixpoint attr_delivered {S : Type} (name : string) (l : list xhtml.Node)
  (f : html.Value -> S -> bool * S) (s : S) : list html.Value :=
  match l with
  | [] => []
  | n :: l' =>
      let (continue, s1) := f (attribute name n) s in
      attribute name n
      :: (if continue || negb (has_attribute name n)
          then attr_delivered name l' f s1
          else [])
  end.

(** [NodeSet{}]: no sequence and no error. *)
Definition zero_NodeSet : html.NodeSet.t := html.NodeSet.mk nilSeq None.

(** What a producer does, as a tree of its decisions: it returns, it
    panics, or it calls [yield] with an item and goes on as the answer
    tells.  A producer that ignores the answer [false] has such a tree as
    well as one that stops. *)
Inductive Behaviour (T : Type) : Type :=
| Returns
| Panics
| Calls (x : T) (next : bool -> Behaviour T).
Arguments Returns {T}.
Arguments Panics {T}.
Arguments Calls {T} x next.

Fixpoint run {T S : Type} (t : Behaviour T) (yield : Yield T S) (s : S)
  : Res S :=
  match t with
  | Returns => Ok s
  | Panics => Panic
  | Calls x next =>
      '(continue, s1) <- yield x s ;;
      run (next continue) yield s1
  end.

(** The sequence [d] does what the tree [t] says, whatever the callback. *)
Definition Behaves {T : Type} (d : Seq T) (t : Behaviour T) : Prop :=
  forall (S : Type) (yield : Yield T S) (s : S), d S yield s = run t yield s.

(** The producer that calls [yield] with the items of [l], returns at the
    first answer [false], and does what [tail] says after the last item. *)
Fixpoint listed {T : Type} (l : list T) (tail : Behaviour T) : Behaviour T :=
  match l with
  | [] => tail
  | x :: l' => Calls x (fun continue => if continue then listed l' tail else Returns)
  end.

(** What the sequence of [XGo_Attr] does over a receiver that does [t]: one
    call per call of the receiver, and the answer handed on to the receiver
    only for a value without an error. *)
Fixpoint attr_behaviour (name : string) (t : Behaviour xhtml.Node)
  : Behaviour html.Value :=
  match t with
  | Returns => Returns
  | Panics => Panics
  | Calls n next =>
      Calls (attribute name n)
        (fun continue =>
           attr_behaviour name
             (next (match util.X_1 (attribute name n) with
                    | None => continue
                    | Some _ => true
                    end)))
  end.

(** Whether the producer returns (rather than panics) once every call is
    answered [false]. *)
Fixpoint returns_when_stopped {T : Type} (t : Behaviour T) : bool :=
  match t with
  | Returns => true
  | Panics => false
  | Calls _ next => returns_when_stopped (next false)
  end.

(** [New(r).XGo_Any()] over the sample document: its six nodes. *)
Definition all_nodes : html.NodeSet.t :=
  html.NodeSet.XGo_Any (html.New (parses_to sample_doc) tt).

(** Induction on a tree, with the property at hand for every child. *)
Section NodeInduction.

Variable P : xhtml.Node -> Prop.
Hypothesis step : forall ty d a cs, Forall P cs -> P (xhtml.mkNode ty d a cs).

Fixpoint Node_ind' (n : xhtml.Node) : P n :=
  match n with
  | xhtml.mkNode ty d a cs =>
      step ty d a cs
        ((fix all (cs : list xhtml.Node) : Forall P cs :=
            match cs with
            | [] => Forall_nil P
            | c :: cs' => Forall_cons c (Node_ind' c) (all cs')
            end) cs)
  end.

End NodeInduction.

(* ------------------------------------------------------------------------- *)
(** ** The range loop *)

Section Feed.

Context {T S : Type}.
Implicit Types (l : list T) (yield : Yield T S) (s : S).

Lemma feed_feedb l yield s :
  feed l yield s = ('(_, s1) <- feedb l yield s ;; Ok s1).
Proof.
  revert s; induction l as [|x l IH]; intros s; simpl; [reflexivity|].
  destruct (yield x s) as [[[] s1]|]; simpl; auto.
Qed.

Lemma feedb_app l1 l2 yield s :
  feedb (l1 ++ l2) yield s =
  ('(continue, s1) <- feedb l1 yield s ;;
   if continue : bool then feedb l2 yield s1 else Ok (false, s1)).
Proof.
  revert s; induction l1 as [|x l1 IH]; intros s; simpl; [reflexivity|].
  destruct (yield x s) as [[[] s1]|]; simpl; auto.
Qed.

End Feed.

Lemma Produces_fromList {T : Type} (l : list T) : Produces (fromList l) l.
Proof. intros S yield s; reflexivity. Qed.

Lemma Produces_nopIter {T : Type} : Produces (@html.nopIter T) [].
Proof. intros S yield s; reflexivity. Qed.

(* ------------------------------------------------------------------------- *)
(** ** The tree accessors *)

Lemma Produces_ChildNodes (n : xhtml.Node) :
  Produces (xhtml.ChildNodes n) (xhtml.Children n).
Proof. intros S yield s; reflexivity. Qed.

Lemma descendants_rec_feedb {S : Type} (n : xhtml.Node) (yield : Yield xhtml.Node S) :
  forall s, xhtml.descendants_rec n yield s = feedb (descendants n) yield s.
Proof.
  induction n as [ty d a cs IH] using Node_ind'.
  simpl. induction IH as [|c cs Hc _ IHcs]; intros s; [reflexivity|].
  simpl. destruct (yield c s) as [[[] s1]|]; simpl; try reflexivity.
  rewrite feedb_app, Hc.
  destruct (feedb (descendants c) yield s1) as [[[] s2]|]; simpl; auto.
Qed.

Lemma Produces_Descendants (n : xhtml.Node) :
  Produces (xhtml.Descendants n) (descendants n).
Proof.
  intros S yield s. unfold xhtml.Descendants.
  now rewrite descendants_rec_feedb, feed_feedb.
Qed.

Lemma length_descendants (n : xhtml.Node) :
  List.length (self_and_descendants n) = size n.
Proof.
  unfold self_and_descendants.
  induction n as [ty d a cs IH] using Node_ind'. simpl. f_equal.
  induction IH as [|c cs Hc _ IHcs]; simpl; [reflexivity|].
  rewrite List.length_app. simpl in Hc. lia.
Qed.

(* ------------------------------------------------------------------------- *)
(** ** What the closures of the combinators do to a receiver's items *)

Section Closures.

Context {S : Type}.
Implicit Types (l : list xhtml.Node) (s : S).

Lemma feed_set_ok (cs : list xhtml.Node) (yield : Yield xhtml.Node S) s :
  feed cs (html.NodeSet.set_ok yield) (true, s) =
  ('(continue, s1) <- feedb cs yield s ;; Ok (continue, s1)).
Proof.
  revert s; induction cs as [|c cs IH]; intros s; simpl; [reflexivity|].
  destruct (yield c s) as [[[] s1]|]; simpl; auto.
Qed.

Lemma feedb_XGo_Node_yield name l (yield : Yield xhtml.Node S) s :
  feedb l (html.NodeSet.XGo_Node_yield name yield) s =
  feedb (filter (is_element name) l) yield s.
Proof.
  revert s; induction l as [|n l IH]; intros s; simpl; [reflexivity|].
  unfold html.NodeSet.XGo_Node_yield at 1. fold (is_element name n).
  destruct (is_element name n); simpl; [|apply IH].
  destruct (yield n s) as [[[] s1]|]; simpl; auto.
Qed.

Lemma feedb_XGo_Child_yield l (yield : Yield xhtml.Node S) s :
  feedb l (html.NodeSet.XGo_Child_yield yield) (true, s) =
  ('(continue, s1) <- feedb (flat_map xhtml.Children l) yield s ;;
   Ok (continue, (continue, s1))).
Proof.
  revert s; induction l as [|n l IH]; intros s; simpl; [reflexivity|].
  unfold html.NodeSet.XGo_Child_yield at 1, xhtml.ChildNodes.
  rewrite feed_set_ok, feedb_app.
  destruct (feedb (xhtml.Children n) yield s) as [[[] s1]|]; simpl; auto.
Qed.

Lemma feedb_XGo_Any_yield l (yield : Yield xhtml.Node S) s :
  feedb l (html.NodeSet.XGo_Any_yield yield) (true, s) =
  ('(continue, s1) <- feedb (flat_map self_and_descendants l) yield s ;;
   Ok (continue, (continue, s1))).
Proof.
  revert s; induction l as [|n l IH]; intros s; simpl; [reflexivity|].
  destruct (yield n s) as [[[] s1]|]; simpl; try reflexivity.
  rewrite (Produces_Descendants n _ _ _), feed_set_ok, feedb_app.
  destruct (feedb (descendants n) yield s1) as [[[] s2]|]; simpl; auto.
Qed.

End Closures.

Lemma Produces_XGo_Node (d : Seq xhtml.Node) (l : list xhtml.Node) (name : string) :
  Produces d l ->
  Produces (html.NodeSet.Data (html.NodeSet.XGo_Node (html.NodeSet.mk d None) name))
           (filter (is_element name) l).
Proof.
  intros H S yield s. simpl.
  now rewrite (H _ _ _), !feed_feedb, feedb_XGo_Node_yield.
Qed.

Lemma Produces_XGo_Child (d : Seq xhtml.Node) (l : list xhtml.Node) :
  Produces d l ->
  Produces (html.NodeSet.Data (html.NodeSet.XGo_Child (html.NodeSet.mk d None)))
           (flat_map xhtml.Children l).
Proof.
  intros H S yield s. simpl. unfold html.Node in *.
  rewrite (H _ _ _), !feed_feedb, feedb_XGo_Child_yield.
  destruct (feedb (flat_map xhtml.Children l) yield s) as [[b s1]|]; reflexivity.
Qed.

Lemma Produces_XGo_Any (d : Seq xhtml.Node) (l : list xhtml.Node) :
  Produces d l ->
  Produces (html.NodeSet.Data (html.NodeSet.XGo_Any (html.NodeSet.mk d None)))
           (flat_map self_and_descendants l).
Proof.
  intros H S yield s. simpl. unfold html.Node in *.
  rewrite (H _ _ _), !feed_feedb, feedb_XGo_Any_yield.
  destruct (feedb (flat_map self_and_descendants l) yield s) as [[b s1]|]; reflexivity.
Qed.

(** From a set in the ok state whose sequence keeps the contract, every
    chain of [XGo_Node], [XGo_Child] and [XGo_Any] gives a set in the ok
    state whose sequence keeps the contract. *)
Lemma Produces_navigate (d : Seq xhtml.Node) (l : list xhtml.Node) (q : navigation) :
  Produces d l ->
  html.NodeSet.Err (navigate (html.NodeSet.mk d None) q) = None
  /\ Produces (html.NodeSet.Data (navigate (html.NodeSet.mk d None) q))
              (navigated l q).
Proof.
  intros H. induction q as [|q IH name|q IH|q IH]; simpl.
  - split; [reflexivity|exact H].
  - destruct (navigate (html.NodeSet.mk d None) q) as [d' e'].
    simpl in IH. destruct IH as [-> IH].
    split; [reflexivity|now apply Produces_XGo_Node].
  - destruct (navigate (html.NodeSet.mk d None) q) as [d' e'].
    simpl in IH. destruct IH as [-> IH].
    split; [reflexivity|now apply Produces_XGo_Child].
  - destruct (navigate (html.NodeSet.mk d None) q) as [d' e'].
    simpl in IH. destruct IH as [-> IH].
    split; [reflexivity|now apply Produces_XGo_Any].
Qed.

(* ------------------------------------------------------------------------- *)
(** ** Traces of contract-abiding sequences *)

Lemma logged_pure_yield {T S : Type} (f : T -> S -> bool * S) (x : T)
  (log : list T) (s : S) :
  logged (pure_yield f) x (log, s) =
  Ok (fst (f x s), (log ++ [x], snd (f x s))).
Proof. unfold logged, pure_yield. now destruct (f x s). Qed.

Lemma feed_logged {T S : Type} (l : list T) (f : T -> S -> bool * S) :
  forall (log : list T) (s : S),
  exists s', feed l (logged (pure_yield f)) (log, s)
             = Ok (log ++ delivered l f s, s').
Proof.
  induction l as [|x l IH]; intros log s; cbn [feed delivered].
  - exists s. now rewrite app_nil_r.
  - rewrite logged_pure_yield. destruct (f x s) as [[] s1]; cbn [bind fst snd].
    + destruct (IH (log ++ [x]) s1) as [s' E]. exists s'.
      rewrite E, <- app_assoc. reflexivity.
    + exists s1. reflexivity.
Qed.

Lemma trace_Produces {T S : Type} (d : Seq T) (l : list T)
  (f : T -> S -> bool * S) (s : S) :
  Produces d l ->
  exists s', trace d (pure_yield f) s = Ok (delivered l f s, s').
Proof.
  intros H. unfold trace. rewrite (H _ _ _).
  apply (feed_logged l f [] s).
Qed.

Lemma feed_collect {T : Type} (l acc : list T) :
  feed l (pure_yield (fun x acc => (true, acc ++ [x]))) acc = Ok (acc ++ l).
Proof.
  revert acc; induction l as [|x l IH]; intros acc; simpl.
  - now rewrite app_nil_r.
  - rewrite IH, <- app_assoc. reflexivity.
Qed.

Lemma collect_Produces {T : Type} (d : Seq T) (l : list T) :
  Produces d l -> collect d = Ok l.
Proof. intros H. unfold collect. now rewrite (H _ _ _), feed_collect. Qed.

(** The items of a sequence that keeps the contract are determined by it. *)
Lemma Produces_inj {T : Type} (d : Seq T) (l1 l2 : list T) :
  Produces d l1 -> Produces d l2 -> l1 = l2.
Proof.
  intros H1 H2. apply collect_Produces in H1, H2. congruence.
Qed.

(* ------------------------------------------------------------------------- *)
(** ** The attribute loop *)

Lemma range_Attr_attribute {S : Type} (name : string) (n : xhtml.Node)
  (yield : Yield html.Value S) (s : S) :
  html.NodeSet.range_Attr name (xhtml.Attr n) yield s =
  ('(continue, s1) <- yield (attribute name n) s ;;
   Ok (match util.X_1 (attribute name n) with
       | None => continue
       | Some _ => true
       end, s1)).
Proof.
  unfold attribute. generalize (xhtml.Attr n) as attrs.
  induction attrs as [|a attrs IH]; simpl.
  - cbv [zero string_zero html.Value].
    destruct (yield (util.mkValue "" (Some html.ErrNotFound)) s)
      as [[b s1]|]; reflexivity.
  - destruct (xhtml.Key a =? name)%string; simpl; [|exact IH].
    destruct (yield (util.mkValue (xhtml.Val a) None) s) as [[b s1]|];
      reflexivity.
Qed.

Lemma exactly_one_attribute (name : string) (n : xhtml.Node) :
  exactly_one (attribute name n).
Proof.
  unfold exactly_one, attribute.
  destruct (find _ _); simpl; [left|right]; auto.
Qed.

Lemma feed_XGo_Attr_collect (name : string) (l : list xhtml.Node) :
  forall acc : list html.Value,
  feed l (html.NodeSet.XGo_Attr_yield name
            (pure_yield (fun x acc => (true, acc ++ [x])))) acc
  = Ok (acc ++ map (attribute name) l).
Proof.
  induction l as [|n l IH]; intros acc; simpl.
  - now rewrite app_nil_r.
  - unfold html.NodeSet.XGo_Attr_yield at 1.
    rewrite range_Attr_attribute. unfold pure_yield at 1. simpl.
    destruct (util.X_1 (attribute name n)); rewrite IH, <- app_assoc; reflexivity.
Qed.

Lemma feed_XGo_Attr_logged {S : Type} (name : string) (yield : Yield html.Value S)
  (l : list xhtml.Node) :
  forall (log : list html.Value) (s : S) (log' : list html.Value) (s' : S),
  feed l (html.NodeSet.XGo_Attr_yield name (logged yield)) (log, s)
  = Ok (log', s') ->
  exists k, log' = log ++ map (attribute name) (firstn k l).
Proof.
  induction l as [|n l IH]; intros log s log' s'; simpl.
  - intros E. injection E as <- <-. exists 0. now rewrite app_nil_r.
  - unfold html.NodeSet.XGo_Attr_yield at 1. rewrite range_Attr_attribute.
    unfold logged at 1.
    destruct (yield (attribute name n) s) as [[b s1]|]; simpl; [|discriminate].
    destruct (match util.X_1 (attribute name n) with None => b | Some _ => true end).
    + intros E. destruct (IH _ _ _ _ E) as [k ->]. exists (Datatypes.S k).
      simpl. now rewrite <- app_assoc.
    + intros E. injection E as <- <-. exists 1. reflexivity.
Qed.

(* ------------------------------------------------------------------------- *)
(** ** Sets in the failed state *)

(** C1: on a node set in the failed state, [XGo_Node], [XGo_Child],
    [XGo_Any] and [XGo_Attr] each return a set in the failed state with the
    same terminal error, and the receiver's sequence is never run: whatever
    [d] is, the nil function included, the result is the receiver itself (for
    [XGo_Attr], a value set that has only the error), and reducing or
    enumerating the result returns normally. *)
Theorem failed_set_short_circuits (d : Seq html.Node) (e : error) (name : string) :
  let p := html.NodeSet.mk d (Some e) in
  (html.NodeSet.XGo_Node p name = p /\ failed_with e (html.NodeSet.XGo_Node p name))
  /\ (html.NodeSet.XGo_Child p = p /\ failed_with e (html.NodeSet.XGo_Child p))
  /\ (html.NodeSet.XGo_Any p = p /\ failed_with e (html.NodeSet.XGo_Any p))
  /\ (html.NodeSet.XGo_Attr p name = html.ValueSet.mk nilSeq (Some e)
      /\ values_failed_with e (html.NodeSet.XGo_Attr p name)).
Proof.
  intros p.
  assert (F : failed_with e p).
  { repeat split. }
  repeat split; try exact (proj1 (proj2 F)).
Qed.

(* ------------------------------------------------------------------------- *)
(** ** The stop signal *)

Lemma stop_now_delivered {T : Type} (d : Seq T) (l : list T) :
  Produces d l -> trace d stop_now tt = Ok (firstn 1 l, tt).
Proof.
  intros H. unfold trace. rewrite (H _ _ _).
  destruct l as [|x l]; reflexivity.
Qed.

(** C2: the sequences of [XGo_Node], [XGo_Child] and [XGo_Any] keep the
    contract (see [Produces_navigate]); the sequence of [XGo_Attr] does not.
    Over the children [<p class=a id=b>] and [<a href=u>] of the body of the
    sample document, with a callback that answers [false] at once, the
    sequence of [XGo_Attr] for the name href calls the callback a second
    time: the answer to the item of a node without the attribute is dropped.
    Hence no list of items describes this sequence, and [XGo_0] returns the
    second item. *)
Theorem XGo_Attr_yields_after_stop :
  collect (html.NodeSet.Data body_children) = Ok [node_p; node_a]
  /\ trace (html.ValueSet.Data (html.NodeSet.XGo_Attr body_children "href"))
           stop_now tt
     = Ok ([util.mkValue "" (Some html.ErrNotFound); util.mkValue "u" None], tt)
  /\ (forall l, ~ Produces
                    (html.ValueSet.Data (html.NodeSet.XGo_Attr body_children "href")) l)
  /\ html.ValueSet.XGo_0 (html.NodeSet.XGo_Attr body_children "href")
     = Ok ("u", None).
Proof.
  split; [reflexivity|]. split; [reflexivity|]. split; [|reflexivity].
  intros l H. apply stop_now_delivered in H.
  vm_compute in H. destruct l as [|x l]; discriminate H.
Qed.

(* ------------------------------------------------------------------------- *)
(** ** The reducers *)

Section Reducers.

Context {T : Type} {Z : GoZero T}.

Lemma feed_util_XGo_1_yield (l : list (util.Value T)) (none : T * option error) :
  feed l util.ValueSet.XGo_1_yield (true, none) =
  Ok (match l with [] => true | _ => false end,
      first_and_unique none util.ErrMultiEntities of_value l).
Proof. destruct l as [|x [|y l]]; destruct none; reflexivity. Qed.

Lemma trace_util_XGo_1_yield (l : list (util.Value T)) (none : T * option error) :
  exists first,
    feed l (logged util.ValueSet.XGo_1_yield) ([], (true, none)) =
    Ok (firstn 2 l, (first, first_and_unique none util.ErrMultiEntities of_value l)).
Proof.
  destruct l as [|x [|y l]]; destruct none; eexists; reflexivity.
Qed.

End Reducers.

Lemma feed_html_XGo_1_yield (l : list html.Value) (none : string * option error) :
  feed l html.ValueSet.XGo_1_yield (true, none) =
  Ok (match l with [] => true | _ => false end,
      first_and_unique none html.ErrMultiEntities of_value l).
Proof. destruct l as [|x [|y l]]; destruct none; reflexivity. Qed.

Lemma trace_html_XGo_1_yield (l : list html.Value) (none : string * option error) :
  exists first,
    feed l (logged html.ValueSet.XGo_1_yield) ([], (true, none)) =
    Ok (firstn 2 l, (first, first_and_unique none html.ErrMultiEntities of_value l)).
Proof.
  destruct l as [|x [|y l]]; destruct none; eexists; reflexivity.
Qed.

Lemma feed_node_XGo_1_yield (l : list html.Node)
  (none : option html.Node * option error) :
  feed l html.NodeSet.XGo_1_yield (true, none) =
  Ok (match l with [] => true | _ => false end,
      first_and_unique none html.ErrMultiEntities of_node l).
Proof. destruct l as [|x [|y l]]; destruct none; reflexivity. Qed.

Lemma trace_node_XGo_1_yield (l : list html.Node)
  (none : option html.Node * option error) :
  exists first,
    feed l (logged html.NodeSet.XGo_1_yield) ([], (true, none)) =
    Ok (firstn 2 l, (first, first_and_unique none html.ErrMultiEntities of_node l)).
Proof.
  destruct l as [|x [|y l]]; destruct none; eexists; reflexivity.
Qed.

(** [XGo_1] of [html.ValueSet], [html.NodeSet] and [util.ValueSet[T]] over
    the sequences that keep the contract.
    In the failed state it returns the terminal error, whatever the sequence
    is.  In the ok state, over a sequence with the items [l]: NotFound when
    [l] is empty; what the item carries when [l] has one item; and with two
    or more items the error TooManyEntities in place of what the first item
    carried, whatever the second item holds.  Its closure is called with the
    first two items and with no further one. *)
Theorem XGo_1_first_and_unique
  (dv : Seq html.Value) (lv : list html.Value)
  (dn : Seq html.Node) (ln : list html.Node)
  (T : Type) (Z : GoZero T) (du : Seq (util.Value T)) (lu : list (util.Value T))
  (e : error) :
  Produces dv lv -> Produces dn ln -> Produces du lu ->
  ((forall d, html.ValueSet.XGo_1 (html.ValueSet.mk d (Some e)) = Ok ("", Some e))
   /\ html.ValueSet.XGo_1 (html.ValueSet.mk dv None)
      = Ok (first_and_unique ("", Some html.ErrNotFound)
              html.ErrMultiEntities of_value lv)
   /\ exists st,
        trace dv html.ValueSet.XGo_1_yield (true, ("", Some html.ErrNotFound))
        = Ok (firstn 2 lv, st))
  /\ ((forall d, html.NodeSet.XGo_1 (html.NodeSet.mk d (Some e)) = Ok (None, Some e))
      /\ html.NodeSet.XGo_1 (html.NodeSet.mk dn None)
         = Ok (first_and_unique (None, Some html.ErrNotFound)
                 html.ErrMultiEntities of_node ln)
      /\ exists st,
           trace dn html.NodeSet.XGo_1_yield (true, (None, Some html.ErrNotFound))
           = Ok (firstn 2 ln, st))
  /\ ((forall d, util.ValueSet.XGo_1 (util.ValueSet.mk d (Some e)) = Ok (zero, Some e))
      /\ util.ValueSet.XGo_1 (util.ValueSet.mk du None)
         = Ok (first_and_unique (zero, Some util.ErrNotFound)
                 util.ErrMultiEntities of_value lu)
      /\ exists st,
           trace du util.ValueSet.XGo_1_yield (true, (zero, Some util.ErrNotFound))
           = Ok (firstn 2 lu, st)).
Proof.
  intros Hv Hn Hu. repeat split; try reflexivity.
  - unfold html.ValueSet.XGo_1. simpl.
    now rewrite (Hv _ _ _), feed_html_XGo_1_yield.
  - unfold trace. rewrite (Hv _ _ _).
    destruct (trace_html_XGo_1_yield lv ("", Some html.ErrNotFound)) as [b E].
    eexists. exact E.
  - unfold html.NodeSet.XGo_1. simpl.
    now rewrite (Hn _ _ _), feed_node_XGo_1_yield.
  - unfold trace. rewrite (Hn _ _ _).
    destruct (trace_node_XGo_1_yield ln (None, Some html.ErrNotFound)) as [b E].
    eexists. exact E.
  - unfold util.ValueSet.XGo_1. simpl.
    now rewrite (Hu _ _ _), feed_util_XGo_1_yield.
  - unfold trace. rewrite (Hu _ _ _).
    destruct (trace_util_XGo_1_yield lu (zero, Some util.ErrNotFound)) as [b E].
    eexists. exact E.
Qed.

Lemma XGo_1_first_and_unique_witness :
  html.ValueSet.XGo_1
    (html.ValueSet.mk
       (fromList [util.mkValue "a" None; util.mkValue "" (Some (external "x"))])
       None)
  = Ok ("a", Some html_ErrMultiEntities)
  /\ html.NodeSet.XGo_1 (html.NodeSet.mk (fromList [node_p]) None)
     = Ok (Some node_p, None)
  /\ util.ValueSet.XGo_1 (util.ValueSet.mk (fromList (@nil (util.Value string))) None)
     = Ok ("", Some util_ErrNotFound).
Proof.
  destruct (@XGo_1_first_and_unique
              (fromList [util.mkValue "a" None; util.mkValue "" (Some (external "x"))])
              [util.mkValue "a" None; util.mkValue "" (Some (external "x"))]
              (fromList [node_p]) [node_p]
              string string_zero (fromList []) []
              (external "parse"))
    as [[_ [Ev _]] [[_ [En _]] [_ [Eu _]]]];
    try (intros S yield s; reflexivity).
  split; [exact Ev|]. split; [exact En|exact Eu].
Defined.

(** [XGo_0] of [html.ValueSet], [html.NodeSet] and [util.ValueSet[T]] over
    the sequences that keep the contract.
    In the failed state it returns the terminal error, whatever the sequence
    is.  In the ok state, over a sequence with the items [l]: NotFound when
    [l] is empty, and what the first item carries otherwise.  Its closure
    answers [false] to the first item, so that it is called with that item
    and with no further one. *)
Theorem XGo_0_first_or_error
  (dv : Seq html.Value) (lv : list html.Value)
  (dn : Seq html.Node) (ln : list html.Node)
  (T : Type) (Z : GoZero T) (du : Seq (util.Value T)) (lu : list (util.Value T))
  (e : error) :
  Produces dv lv -> Produces dn ln -> Produces du lu ->
  ((forall d, html.ValueSet.XGo_0 (html.ValueSet.mk d (Some e)) = Ok ("", Some e))
   /\ html.ValueSet.XGo_0 (html.ValueSet.mk dv None)
      = Ok (first_or_error ("", Some html.ErrNotFound) of_value lv)
   /\ (forall v st, exists st', html.ValueSet.XGo_0_yield v st = Ok (false, st'))
   /\ exists st,
        trace dv html.ValueSet.XGo_0_yield ("", Some html.ErrNotFound)
        = Ok (firstn 1 lv, st))
  /\ ((forall d, html.NodeSet.XGo_0 (html.NodeSet.mk d (Some e)) = Ok (None, Some e))
      /\ html.NodeSet.XGo_0 (html.NodeSet.mk dn None)
         = Ok (first_or_error (None, Some html.ErrNotFound) of_node ln)
      /\ (forall n st, exists st', html.NodeSet.XGo_0_yield n st = Ok (false, st'))
      /\ exists st,
           trace dn html.NodeSet.XGo_0_yield (None, Some html.ErrNotFound)
           = Ok (firstn 1 ln, st))
  /\ ((forall d, util.ValueSet.XGo_0 (util.ValueSet.mk d (Some e)) = Ok (zero, Some e))
      /\ util.ValueSet.XGo_0 (util.ValueSet.mk du None)
         = Ok (first_or_error (zero, Some util.ErrNotFound) of_value lu)
      /\ (forall (v : util.Value T) st,
            exists st', util.ValueSet.XGo_0_yield v st = Ok (false, st'))
      /\ exists st,
           trace du util.ValueSet.XGo_0_yield (zero, Some util.ErrNotFound)
           = Ok (firstn 1 lu, st)).
Proof.
  intros Hv Hn Hu.
  repeat split; try reflexivity; try (intros; eexists; reflexivity).
  - unfold html.ValueSet.XGo_0. simpl. rewrite (Hv _ _ _).
    destruct lv; reflexivity.
  - unfold trace. rewrite (Hv _ _ _). destruct lv; eexists; reflexivity.
  - unfold html.NodeSet.XGo_0. simpl. rewrite (Hn _ _ _).
    destruct ln; reflexivity.
  - unfold trace. rewrite (Hn _ _ _). destruct ln; eexists; reflexivity.
  - unfold util.ValueSet.XGo_0. simpl. rewrite (Hu _ _ _).
    destruct lu; reflexivity.
  - unfold trace. rewrite (Hu _ _ _). destruct lu; eexists; reflexivity.
Qed.

Lemma XGo_0_first_or_error_witness :
  html.ValueSet.XGo_0
    (html.ValueSet.mk
       (fromList [util.mkValue "a" None; util.mkValue "b" None]) None)
  = Ok ("a", None)
  /\ html.NodeSet.XGo_0 (html.NodeSet.mk (fromList [node_p; node_a]) None)
     = Ok (Some node_p, None)
  /\ util.ValueSet.XGo_0 (util.ValueSet.mk (fromList (@nil (util.Value string))) None)
     = Ok ("", Some util_ErrNotFound).
Proof.
  destruct (@XGo_0_first_or_error
              (fromList [util.mkValue "a" None; util.mkValue "b" None])
              [util.mkValue "a" None; util.mkValue "b" None]
              (fromList [node_p; node_a]) [node_p; node_a]
              string string_zero (fromList []) []
              (external "parse"))
    as [[_ [Ev _]] [[_ [En _]] [_ [Eu _]]]];
    try (intros S yield s; reflexivity).
  split; [exact Ev|]. split; [exact En|exact Eu].
Defined.

(** C3: [XGo_1] does not stop every value set at the second item.  The
    value set that [XGo_Attr] makes for the name id of the six nodes of the
    sample document has the nodes without the attribute first: [XGo_1]
    answers [false] to the second item, and its closure is still called with
    the third and the fourth item, up to the first node that has the
    attribute; the result is TooManyEntities all the same.  Over a receiver
    that panics when it is told to continue after its second node, [XGo_1]
    of the value set panics, where [XGo_1] of the node set itself returns
    TooManyEntities.  This comes from the answer that [XGo_Attr] drops. *)
Theorem XGo_1_iterates_past_second_item :
  trace (html.ValueSet.Data (html.NodeSet.XGo_Attr all_nodes "id"))
        html.ValueSet.XGo_1_yield (true, ("", Some html.ErrNotFound))
  = Ok ([util.mkValue "" (Some html.ErrNotFound);
         util.mkValue "" (Some html.ErrNotFound);
         util.mkValue "" (Some html.ErrNotFound);
         util.mkValue "b" None],
        (false, ("", Some html.ErrMultiEntities)))
  /\ html.ValueSet.XGo_1 (html.NodeSet.XGo_Attr all_nodes "id")
     = Ok ("", Some html.ErrMultiEntities)
  /\ html.ValueSet.XGo_1
       (html.NodeSet.XGo_Attr
          (html.NodeSet.mk (panics_after [node_a; node_a]) None) "id")
     = Panic
  /\ html.NodeSet.XGo_1 (html.NodeSet.mk (panics_after [node_a; node_a]) None)
     = Ok (Some node_a, Some html.ErrMultiEntities).
Proof. repeat split. Qed.

(** C4: [XGo_0] does not return the first item of every value set.  The
    value set that [XGo_Attr] makes for the name href of the children
    [<p class=a id=b>] and [<a href=u>] of the body of the sample document
    has the item NotFound first and the value u second: [XGo_0] answers
    [false] to the first item, its closure is called with the second item
    too, and [XGo_0] returns the value u without an error.  Over a receiver
    that panics when it is told to continue after the node [<p>], [XGo_0] of
    the value set panics.  This comes from the answer that [XGo_Attr]
    drops. *)
Theorem XGo_0_returns_later_item :
  collect (html.ValueSet.Data (html.NodeSet.XGo_Attr body_children "href"))
  = Ok [util.mkValue "" (Some html.ErrNotFound); util.mkValue "u" None]
  /\ html.ValueSet.XGo_0 (html.NodeSet.XGo_Attr body_children "href")
     = Ok ("u", None)
  /\ trace (html.ValueSet.Data (html.NodeSet.XGo_Attr body_children "href"))
           html.ValueSet.XGo_0_yield ("", Some html.ErrNotFound)
     = Ok ([util.mkValue "" (Some html.ErrNotFound); util.mkValue "u" None],
           ("u", None))
  /\ html.ValueSet.XGo_0
       (html.NodeSet.XGo_Attr (html.NodeSet.mk (panics_after [node_p]) None) "href")
     = Panic
  /\ html.NodeSet.XGo_0 (html.NodeSet.mk (panics_after [node_p]) None)
     = Ok (Some node_p, None).
Proof. repeat split. Qed.

(* ------------------------------------------------------------------------- *)
(** ** Document order lists every node of a tree once *)







(* ------------------------------------------------------------------------- *)
(** ** The combinators on a set in the ok state *)


(** C5: over a receiver in the ok state whose sequence has the nodes [l],
    the sequence of [XGo_Attr name], enumerated to its end, has exactly one
    [Value] per node, in the order of [l]: the value of the first attribute
    of the node whose key is [name], or the error NotFound when the node has
    no such attribute. *)
Theorem XGo_Attr_one_value_per_node
  (d : Seq html.Node) (l : list html.Node) (name : string) :
  Produces d l ->
  html.ValueSet.Err (html.NodeSet.XGo_Attr (html.NodeSet.mk d None) name) = None
  /\ collect (html.ValueSet.Data
                (html.NodeSet.XGo_Attr (html.NodeSet.mk d None) name))
     = Ok (map (attribute name) l).
Proof.
  intros H. split; [reflexivity|].
  unfold collect. simpl. rewrite (H _ _ _).
  apply (feed_XGo_Attr_collect name l []).
Qed.

Lemma XGo_Attr_one_value_per_node_witness :
  collect (html.ValueSet.Data
             (html.NodeSet.XGo_Attr
                (html.NodeSet.mk (fromList [node_a; node_p; node_i]) None) "id"))
  = Ok [util.mkValue "" (Some html_ErrNotFound);
        util.mkValue "b" None;
        util.mkValue "x" None].
Proof.
  apply (proj2 (@XGo_Attr_one_value_per_node
                  (fromList [node_a; node_p; node_i]) [node_a; node_p; node_i]
                  "id" (fun S yield s => eq_refl))).
Defined.





(** C7: over a receiver in the ok state whose sequence has the nodes [l],
    the sequence of [XGo_Child] has the children of the first node of [l],
    then those of the second, and so on.  It keeps the contract of a
    sequence: once the callback has answered [false], it is called with no
    further child, of this node or of a later one. *)
Theorem XGo_Child_flattens (d : Seq html.Node) (l : list html.Node) :
  Produces d l ->
  Produces (html.NodeSet.Data (html.NodeSet.XGo_Child (html.NodeSet.mk d None)))
           (flat_map xhtml.Children l)
  /\ forall (S : Type) (f : html.Node -> S -> bool * S) (s : S),
     exists s',
       trace (html.NodeSet.Data (html.NodeSet.XGo_Child (html.NodeSet.mk d None)))
             (pure_yield f) s
       = Ok (delivered (flat_map xhtml.Children l) f s, s').
Proof.
  intros H. pose proof (Produces_XGo_Child d l H) as HC.
  split; [exact HC|].
  intros S f s. now apply trace_Produces.
Qed.

Lemma XGo_Child_flattens_witness :
  trace (html.NodeSet.Data
           (html.NodeSet.XGo_Child
              (html.NodeSet.mk (fromList [node_body; node_p]) None)))
        stop_now tt
  = Ok ([node_p], tt).
Proof.
  unfold trace.
  rewrite (proj1 (@XGo_Child_flattens
                    (fromList [node_body; node_p]) [node_body; node_p]
                    (fun S yield s => eq_refl)) _ _ _).
  reflexivity.
Defined.

(** C9: every [Value] that the sequence of [XGo_Attr] hands to a callback
    holds either no error, or the error NotFound next to the empty string.
    This holds for the values of a full enumeration and for the values any
    callback has been called with when the run returns. *)
Theorem XGo_Attr_values_exactly_one
  (d : Seq html.Node) (l : list html.Node) (name : string) :
  Produces d l ->
  (exists vs,
     collect (html.ValueSet.Data
                (html.NodeSet.XGo_Attr (html.NodeSet.mk d None) name)) = Ok vs
     /\ Forall exactly_one vs)
  /\ forall (S : Type) (yield : Yield html.Value S) (s : S) log s',
     trace (html.ValueSet.Data
              (html.NodeSet.XGo_Attr (html.NodeSet.mk d None) name)) yield s
     = Ok (log, s') ->
     Forall exactly_one log.
Proof.
  intros H.
  assert (A : forall ns, Forall exactly_one (map (attribute name) ns)).
  { intros ns. apply Forall_forall. intros v Hv.
    apply in_map_iff in Hv. destruct Hv as [n [<- _]].
    apply exactly_one_attribute. }
  split.
  - exists (map (attribute name) l). split; [|apply A].
    unfold collect. simpl. rewrite (H _ _ _).
    apply (feed_XGo_Attr_collect name l []).
  - intros S yield s log s'. unfold trace. simpl. rewrite (H _ _ _).
    intros E. apply feed_XGo_Attr_logged in E. destruct E as [k ->].
    apply A.
Qed.

Lemma XGo_Attr_values_exactly_one_witness :
  Forall exactly_one
    [util.mkValue "" (Some html_ErrNotFound); util.mkValue "u" None].
Proof.
  apply (proj2 (@XGo_Attr_values_exactly_one
                  (fromList [node_p; node_a]) [node_p; node_a] "href"
                  (fun S yield s => eq_refl))
           unit stop_now tt _ tt).
  reflexivity.
Defined.

(* ------------------------------------------------------------------------- *)
(** ** Construction *)

Section SourceCases.

Variable Reader : Type.
Variable html_Parse : Reader -> html.Node + error.
Variable stream_Open : string -> Reader + error.
Variable bytes_NewReader : list Byte.byte -> Reader.

Lemma New_wraps (r : Reader) : wraps (html_Parse r) (html.New html_Parse r).
Proof.
  unfold wraps, html.New. destruct (html_Parse r) as [doc|err]; simpl.
  - split; [reflexivity|]. intros S yield s. simpl.
    destruct (yield doc s) as [[[] s1]|]; reflexivity.
  - reflexivity.
Qed.

(** C8: [Source] takes a node sequence as the sequence of a set in the ok
    state and a [NodeSet] as it is, whatever the parser would do; it hands a
    reader, a byte slice (through a reader on it) and an opened location to
    the parser, and returns a set in the failed state with the error of the
    opener or of the parser, or else a set whose one item is the root; for
    any other source it panics. *)
Theorem Source_cases :
  (forall v : Seq html.Node,
     html.Source html_Parse stream_Open bytes_NewReader (html.any_Seq v)
     = Ok (html.NodeSet.mk v None))
  /\ (forall v : html.NodeSet.t,
        html.Source html_Parse stream_Open bytes_NewReader (html.any_NodeSet v)
        = Ok v)
  /\ (forall r : Reader,
        exists ns,
          html.Source html_Parse stream_Open bytes_NewReader (html.any_Reader r)
          = Ok ns
          /\ wraps (html_Parse r) ns)
  /\ (forall b : list Byte.byte,
        exists ns,
          html.Source html_Parse stream_Open bytes_NewReader (html.any_bytes b)
          = Ok ns
          /\ wraps (html_Parse (bytes_NewReader b)) ns)
  /\ (forall v : string,
        exists ns,
          html.Source html_Parse stream_Open bytes_NewReader (html.any_string v)
          = Ok ns
          /\ match stream_Open v with
             | inr err => html.NodeSet.Err ns = Some err
             | inl f => wraps (html_Parse f) ns
             end)
  /\ (forall type_name : string,
        html.Source html_Parse stream_Open bytes_NewReader
          (html.any_other type_name)
        = Panic).
Proof.
  repeat split.
  - intros r. eexists. split; [reflexivity|apply New_wraps].
  - intros b. eexists. split; [reflexivity|apply New_wraps].
  - intros v. simpl. destruct (stream_Open v) as [f|err]; eexists;
      (split; [reflexivity|]); [apply New_wraps|reflexivity].
Qed.

End SourceCases.

(* ------------------------------------------------------------------------- *)
(** ** The generic and the specialised value set *)

(** C10, as it is stated, fails: on the empty sequence the two [XGo_0]
    return the sentinel of their own package, and these are two different
    error values (with the same text). *)
Lemma reducers_differ_on_empty :
  html.ValueSet.XGo_0 (html.ValueSet.mk html.nopIter None)
  = Ok ("", Some html_ErrNotFound)
  /\ util.ValueSet.XGo_0 (as_util (html.ValueSet.mk html.nopIter None))
     = Ok ("", Some util_ErrNotFound)
  /\ html.ValueSet.XGo_0 (html.ValueSet.mk html.nopIter None)
     <> util.ValueSet.XGo_0 (as_util (html.ValueSet.mk html.nopIter None))
  /\ Error html_ErrNotFound = Error util_ErrNotFound.
Proof.
  split; [reflexivity|]. split; [reflexivity|]. split; [|reflexivity].
  discriminate.
Qed.

Lemma run_listed {T S : Type} (l : list T) (tail : Behaviour T)
  (yield : Yield T S) :
  forall s,
  run (listed l tail) yield s
  = ('(continue, s1) <- feedb l yield s ;;
     if continue : bool then run tail yield s1 else Ok s1).
Proof.
  induction l as [|x l IH]; intros s; simpl; [reflexivity|].
  destruct (yield x s) as [[[] s1]|]; simpl; auto.
Qed.

(** A sequence that keeps the contract behaves as the tree of its items. *)
Lemma Produces_Behaves {T : Type} (d : Seq T) (l : list T) :
  Produces d l -> Behaves d (listed l Returns).
Proof.
  intros H S yield s. rewrite (H _ _ _), run_listed, feed_feedb.
  destruct (feedb l yield s) as [[[] s1]|]; reflexivity.
Qed.

Lemma Behaves_panics_after {T : Type} (l : list T) :
  Behaves (panics_after l) (listed l Panics).
Proof.
  intros S yield s. rewrite run_listed. unfold panics_after.
  destruct (feedb l yield s) as [[[] s1]|]; reflexivity.
Qed.

Lemma Behaves_nilSeq {T : Type} : Behaves (@nilSeq T) Panics.
Proof. intros S yield s. reflexivity. Qed.

(** The sequences that [XGo_Attr] makes have a tree too, although they do
    not keep the contract. *)
Lemma Behaves_XGo_Attr (d : Seq html.Node) (t : Behaviour xhtml.Node)
  (name : string) :
  Behaves d t ->
  Behaves (html.ValueSet.Data
             (html.NodeSet.XGo_Attr (html.NodeSet.mk d None) name))
          (attr_behaviour name t).
Proof.
  intros H S yield s. simpl. rewrite (H _ _ _). clear H. revert s.
  induction t as [| |n next IH]; intros s; simpl; try reflexivity.
  unfold html.NodeSet.XGo_Attr_yield at 1. rewrite range_Attr_attribute.
  destruct (yield (attribute name n) s) as [[continue s1]|]; simpl;
    [apply IH|reflexivity].
Qed.

Lemma run_html_XGo_1_stopped (t : Behaviour html.Value) (val : string) :
  run t html.ValueSet.XGo_1_yield (false, (val, Some html.ErrMultiEntities))
  = if returns_when_stopped t
    then Ok (false, (val, Some html.ErrMultiEntities))
    else Panic.
Proof. induction t as [| |x next IH]; simpl; auto. Qed.

Lemma run_util_XGo_1_stopped {T : Type} (t : Behaviour (util.Value T)) (val : T) :
  run t util.ValueSet.XGo_1_yield (false, (val, Some util.ErrMultiEntities))
  = if returns_when_stopped t
    then Ok (false, (val, Some util.ErrMultiEntities))
    else Panic.
Proof. induction t as [| |x next IH]; simpl; auto. Qed.

(** C10, amended: over the same sequence and terminal error, whatever the
    sequence does (it may ignore the answer [false], or panic), the reducers
    of [util.ValueSet[string]] and of [html.ValueSet] agree but for the
    sentinel.  [XGo_Enum] is the same sequence; in the failed state [XGo_0]
    and [XGo_1] return the same result.  In the ok state: when the sequence
    calls [yield] with no item, [XGo_0] and [XGo_1] return the empty string
    with [html.ErrNotFound] in package [html] and with [util.ErrNotFound] in
    package [util]; when [XGo_1] sees a second item, both panic or both
    return the value of the first item, with [html.ErrMultiEntities] in
    package [html] and with [util.ErrMultiEntities] in package [util]; in
    every other case the two results are equal (a panic of the sequence
    included). *)
Theorem util_html_reducers_agree
  (d : Seq html.Value) (t : Behaviour html.Value) :
  Behaves d t ->
  (forall (d' : Seq html.Value) (e : option error),
     util.ValueSet.XGo_Enum (as_util (html.ValueSet.mk d' e))
     = html.ValueSet.XGo_Enum (html.ValueSet.mk d' e))
  /\ (forall (d' : Seq html.Value) (e : error),
        util.ValueSet.XGo_0 (as_util (html.ValueSet.mk d' (Some e)))
        = html.ValueSet.XGo_0 (html.ValueSet.mk d' (Some e))
        /\ util.ValueSet.XGo_1 (as_util (html.ValueSet.mk d' (Some e)))
           = html.ValueSet.XGo_1 (html.ValueSet.mk d' (Some e)))
  /\ match t with
     | Returns =>
         html.ValueSet.XGo_0 (html.ValueSet.mk d None)
         = Ok ("", Some html.ErrNotFound)
         /\ util.ValueSet.XGo_0 (as_util (html.ValueSet.mk d None))
            = Ok ("", Some util.ErrNotFound)
     | _ =>
         html.ValueSet.XGo_0 (html.ValueSet.mk d None)
         = util.ValueSet.XGo_0 (as_util (html.ValueSet.mk d None))
     end
  /\ match t with
     | Returns =>
         html.ValueSet.XGo_1 (html.ValueSet.mk d None)
         = Ok ("", Some html.ErrNotFound)
         /\ util.ValueSet.XGo_1 (as_util (html.ValueSet.mk d None))
            = Ok ("", Some util.ErrNotFound)
     | Panics =>
         html.ValueSet.XGo_1 (html.ValueSet.mk d None)
         = util.ValueSet.XGo_1 (as_util (html.ValueSet.mk d None))
     | Calls x next =>
         match next true with
         | Calls y next' =>
             if returns_when_stopped (next' false)
             then
               html.ValueSet.XGo_1 (html.ValueSet.mk d None)
               = Ok (util.X_0 x, Some html.ErrMultiEntities)
               /\ util.ValueSet.XGo_1 (as_util (html.ValueSet.mk d None))
                  = Ok (util.X_0 x, Some util.ErrMultiEntities)
             else
               html.ValueSet.XGo_1 (html.ValueSet.mk d None) = Panic
               /\ util.ValueSet.XGo_1 (as_util (html.ValueSet.mk d None)) = Panic
         | _ =>
             html.ValueSet.XGo_1 (html.ValueSet.mk d None)
             = util.ValueSet.XGo_1 (as_util (html.ValueSet.mk d None))
         end
     end.
Proof.
  intros H. split; [|split; [|split]].
  - intros d' [e|]; reflexivity.
  - intros d' e. split; reflexivity.
  - unfold html.ValueSet.XGo_0, util.ValueSet.XGo_0, as_util. simpl.
    rewrite !(H _ _ _). destruct t as [| |x next]; [split| |]; reflexivity.
  - unfold html.ValueSet.XGo_1, util.ValueSet.XGo_1, as_util. simpl.
    rewrite !(H _ _ _). destruct t as [| |x next]; [split; reflexivity|reflexivity|].
    simpl. destruct (next true) as [| |y next']; [reflexivity|reflexivity|].
    change (run (Calls y next') html.ValueSet.XGo_1_yield
              (false, (util.X_0 x, util.X_1 x)))
      with (run (next' false) html.ValueSet.XGo_1_yield
              (false, (util.X_0 x, Some html.ErrMultiEntities))).
    change (run (Calls y next') util.ValueSet.XGo_1_yield
              (false, (util.X_0 x, util.X_1 x)))
      with (run (next' false) util.ValueSet.XGo_1_yield
              (false, (util.X_0 x, Some util.ErrMultiEntities))).
    rewrite run_html_XGo_1_stopped. unfold html.Value in *.
    rewrite (@run_util_XGo_1_stopped string (next' false) (util.X_0 x)).
    destruct (returns_when_stopped (next' false)); split; reflexivity.
Qed.

Lemma util_html_reducers_agree_witness :
  html.ValueSet.XGo_0
    (html.NodeSet.XGo_Attr
       (html.NodeSet.mk (fromList [node_p; node_a]) None) "href")
  = util.ValueSet.XGo_0
      (as_util
         (html.NodeSet.XGo_Attr
            (html.NodeSet.mk (fromList [node_p; node_a]) None) "href"))
  /\ html.ValueSet.XGo_1
       (html.NodeSet.XGo_Attr
          (html.NodeSet.mk (fromList [node_p; node_a]) None) "href")
     = Ok ("", Some html_ErrMultiEntities)
  /\ util.ValueSet.XGo_1
       (as_util
          (html.NodeSet.XGo_Attr
             (html.NodeSet.mk (fromList [node_p; node_a]) None) "href"))
     = Ok ("", Some util_ErrMultiEntities).
Proof.
  destruct (@util_html_reducers_agree
              (html.ValueSet.Data
                 (html.NodeSet.XGo_Attr
                    (html.NodeSet.mk (fromList [node_p; node_a]) None) "href"))
              (attr_behaviour "href" (listed [node_p; node_a] Returns))
              (Behaves_XGo_Attr (fromList [node_p; node_a]) _ "href"
                 (Produces_Behaves (fromList [node_p; node_a]) [node_p; node_a]
                    (fun S yield s => eq_refl))))
    as (_ & _ & E0 & E1).
  split; [exact E0|exact E1].
Defined.

(* ------------------------------------------------------------------------- *)
(** ** Filtering by name *)

Lemma NodeType_eqb_eq (a b : xhtml.NodeType) :
  xhtml.NodeType_eqb a b = true <-> a = b.
Proof. destruct a, b; simpl; split; congruence. Qed.

Lemma is_element_true (name : string) (n : xhtml.Node) :
  is_element name n = true <->
  xhtml.Type_ n = xhtml.ElementNode /\ xhtml.Data n = name.
Proof.
  unfold is_element.
  now rewrite andb_true_iff, NodeType_eqb_eq, String.eqb_eq.
Qed.

(** X1: over a receiver in the ok state whose sequence has the nodes [l],
    the sequence of [XGo_Node name] keeps the contract; its items are the
    nodes of [l], in their order, that are elements whose tag is [name]: a
    node is an item exactly when it is such a node of [l], so a text or
    comment node whose data is [name] is left out. *)
Theorem XGo_Node_selects_elements
  (d : Seq html.Node) (l : list html.Node) (name : string) :
  Produces d l ->
  exists items,
    Produces (html.NodeSet.Data (html.NodeSet.XGo_Node (html.NodeSet.mk d None) name))
             items
    /\ items = filter (is_element name) l
    /\ (forall n, In n items <->
                  In n l /\ xhtml.Type_ n = xhtml.ElementNode /\ xhtml.Data n = name)
    /\ List.length items <= List.length l.
Proof.
  intros H. exists (filter (is_element name) l).
  split; [now apply Produces_XGo_Node|]. split; [reflexivity|]. split.
  - intros n. now rewrite filter_In, is_element_true.
  - apply filter_length_le.
Qed.

Lemma XGo_Node_selects_elements_witness :
  collect (html.NodeSet.Data
             (html.NodeSet.XGo_Node
                (html.NodeSet.mk (fromList [text "a"; node_p; node_a; node_a]) None)
                "a"))
  = Ok [node_a; node_a].
Proof.
  destruct (@XGo_Node_selects_elements
              (fromList [text "a"; node_p; node_a; node_a])
              [text "a"; node_p; node_a; node_a] "a"
              (fun S yield s => eq_refl)) as [items [P [-> _]]].
  unfold collect. rewrite (P _ _ _). reflexivity.
Defined.

Lemma filter_is_element_twice (a b : string) (l : list xhtml.Node) :
  filter (is_element a) (filter (is_element b) l)
  = if (a =? b)%string then filter (is_element a) l else [].
Proof.
  destruct (String.eqb_spec a b) as [->|Hab].
  - induction l as [|n l IH]; simpl; [reflexivity|].
    destruct (is_element b n) eqn:E; simpl; rewrite ?E, IH; reflexivity.
  - induction l as [|n l IH]; simpl; [reflexivity|].
    destruct (is_element b n) eqn:E; simpl; [|exact IH].
    destruct (is_element a n) eqn:E'; [|exact IH].
    apply is_element_true in E, E'. destruct E as [_ E], E' as [_ E'].
    congruence.
Qed.

(** X2: [XGo_Node] applied twice.  With the same name the second filter
    changes nothing; with two different names no node is left, and [XGo_0]
    reports NotFound. *)
Theorem XGo_Node_twice
  (d : Seq html.Node) (l : list html.Node) (a b : string) :
  Produces d l ->
  Produces (html.NodeSet.Data
              (html.NodeSet.XGo_Node
                 (html.NodeSet.XGo_Node (html.NodeSet.mk d None) b) a))
           (if (a =? b)%string then filter (is_element a) l else [])
  /\ (a <> b ->
      html.NodeSet.XGo_0
        (html.NodeSet.XGo_Node
           (html.NodeSet.XGo_Node (html.NodeSet.mk d None) b) a)
      = Ok (None, Some html.ErrNotFound)).
Proof.
  intros H.
  assert (P : Produces (html.NodeSet.Data
              (html.NodeSet.XGo_Node
                 (html.NodeSet.XGo_Node (html.NodeSet.mk d None) b) a))
           (if (a =? b)%string then filter (is_element a) l else [])).
  { rewrite <- filter_is_element_twice.
    apply (Produces_XGo_Node _ _ a (Produces_XGo_Node d l b H)). }
  split; [exact P|].
  intros Hab. unfold html.NodeSet.XGo_0.
  change (html.NodeSet.Err _) with (@None error). cbv iota.
  rewrite (P _ _ _). apply String.eqb_neq in Hab. rewrite Hab. reflexivity.
Qed.

Lemma XGo_Node_twice_witness :
  "a" <> "p"
  /\ html.NodeSet.XGo_0
       (html.NodeSet.XGo_Node
          (html.NodeSet.XGo_Node
             (html.NodeSet.mk (fromList [node_p; node_a]) None) "p") "a")
     = Ok (None, Some html_ErrNotFound).
Proof.
  assert (N : "a" <> "p") by discriminate.
  split; [exact N|].
  apply (proj2 (@XGo_Node_twice (fromList [node_p; node_a]) [node_p; node_a]
                  "a" "p" (fun S yield s => eq_refl)) N).
Defined.

(* ------------------------------------------------------------------------- *)
(** ** Chains of combinators *)

(** X3: chains compose.  From a set in the ok state whose sequence keeps the
    contract, every chain of [XGo_Node], [XGo_Child] and [XGo_Any] gives a
    set in the ok state whose sequence keeps the contract; its items are
    those of the chain computed on lists, and any callback is called with
    exactly the items up to and with the first one it answers [false] to. *)
Theorem navigation_composes
  (d : Seq html.Node) (l : list html.Node) (q : navigation) :
  Produces d l ->
  html.NodeSet.Err (navigate (html.NodeSet.mk d None) q) = None
  /\ Produces (html.NodeSet.Data (navigate (html.NodeSet.mk d None) q))
              (navigated l q)
  /\ forall (S : Type) (f : html.Node -> S -> bool * S) (s : S),
     exists s',
       trace (html.NodeSet.Data (navigate (html.NodeSet.mk d None) q))
             (pure_yield f) s
       = Ok (delivered (navigated l q) f s, s').
Proof.
  intros H. destruct (Produces_navigate d l q H) as [E P].
  split; [exact E|]. split; [exact P|].
  intros S f s. now apply trace_Produces.
Qed.

Lemma navigation_composes_witness :
  collect (html.NodeSet.Data
             (navigate (html.NodeSet.mk (fromList [sample_doc]) None)
                (nav_Child (nav_Node (nav_Any nav_start) "body"))))
  = Ok [node_p; node_a].
Proof.
  unfold collect.
  rewrite (proj1 (proj2 (@navigation_composes
                           (fromList [sample_doc]) [sample_doc]
                           (nav_Child (nav_Node (nav_Any nav_start) "body"))
                           (fun S yield s => eq_refl))) _ _ _).
  reflexivity.
Defined.

Lemma combinators_keep_Err_aux (p : html.NodeSet.t) (q : navigation) :
  html.NodeSet.Err (navigate p q) = html.NodeSet.Err p
  /\ forall name,
       html.ValueSet.Err (html.NodeSet.XGo_Attr (navigate p q) name)
       = html.NodeSet.Err p.
Proof.
  assert (E : html.NodeSet.Err (navigate p q) = html.NodeSet.Err p).
  { induction q as [|q IH name'|q IH|q IH]; simpl; [reflexivity| | |];
      rewrite <- IH;
      [unfold html.NodeSet.XGo_Node|unfold html.NodeSet.XGo_Child
      |unfold html.NodeSet.XGo_Any];
      destruct (html.NodeSet.Err (navigate p q)) eqn:E; simpl; congruence. }
  split; [exact E|]. intros name.
  rewrite <- E. unfold html.NodeSet.XGo_Attr.
  destruct (html.NodeSet.Err (navigate p q)); reflexivity.
Qed.

(** X4: no combinator touches the terminal error.  Through every chain of
    [XGo_Node], [XGo_Child] and [XGo_Any], and through [XGo_Attr] after it,
    the result has the [Err] of the set the chain started from, whether that
    is an error or none, and whatever the sequences are. *)
Theorem combinators_keep_Err
  (p : html.NodeSet.t) (q : navigation) (name : string) :
  html.NodeSet.Err (navigate p q) = html.NodeSet.Err p
  /\ html.ValueSet.Err (html.NodeSet.XGo_Attr (navigate p q) name)
     = html.NodeSet.Err p.
Proof.
  destruct (combinators_keep_Err_aux p q) as [E A].
  split; [exact E|apply A].
Qed.

Lemma first_or_error_filter (f : xhtml.Node -> bool) (l : list xhtml.Node) :
  first_or_error (None, Some html.ErrNotFound) of_node (filter f l)
  = match find f l with
    | Some n => (Some n, None)
    | None => (None, Some html.ErrNotFound)
    end.
Proof.
  induction l as [|n l IH]; simpl; [reflexivity|].
  destruct (f n); [reflexivity|exact IH].
Qed.

(** X5: [p.XGo_Any().XGo_Node(name).XGo_0()] returns the first element with
    the tag [name] in document order below (and with) the nodes of [p], and
    NotFound when there is none. *)
Theorem first_element_by_name
  (d : Seq html.Node) (l : list html.Node) (name : string) :
  Produces d l ->
  html.NodeSet.XGo_0
    (html.NodeSet.XGo_Node (html.NodeSet.XGo_Any (html.NodeSet.mk d None)) name)
  = Ok (match find (is_element name) (flat_map self_and_descendants l) with
        | Some n => (Some n, None)
        | None => (None, Some html.ErrNotFound)
        end).
Proof.
  intros H.
  pose proof (Produces_XGo_Node _ _ name (Produces_XGo_Any d l H)) as P.
  unfold html.NodeSet.XGo_0.
  change (html.NodeSet.Err _) with (@None error). cbv iota.
  rewrite (P _ _ _), <- first_or_error_filter.
  destruct (filter _ _); reflexivity.
Qed.

Lemma first_element_by_name_witness :
  html.NodeSet.XGo_0
    (html.NodeSet.XGo_Node
       (html.NodeSet.XGo_Any (html.NodeSet.mk (fromList [sample_doc]) None)) "a")
  = Ok (Some node_a, None).
Proof.
  apply (@first_element_by_name (fromList [sample_doc]) [sample_doc] "a"
           (fun S yield s => eq_refl)).
Defined.

(* ------------------------------------------------------------------------- *)
(** ** The attribute projection, as it runs *)

Lemma attribute_has (name : string) (n : xhtml.Node) :
  if has_attribute name n
  then util.X_1 (attribute name n) = None
  else attribute name n = util.mkValue "" (Some html.ErrNotFound).
Proof.
  unfold has_attribute, attribute.
  induction (xhtml.Attr n) as [|a attrs IH]; simpl; [reflexivity|].
  destruct (xhtml.Key a =? name)%string; simpl; [reflexivity|exact IH].
Qed.

Lemma attribute_first_match (name : string) (n : xhtml.Node) :
  match util.X_1 (attribute name n) with
  | None =>
      exists pre a post,
        xhtml.Attr n = pre ++ a :: post
        /\ Forall (fun b => xhtml.Key b <> name) pre
        /\ xhtml.Key a = name
        /\ util.X_0 (attribute name n) = xhtml.Val a
  | Some e =>
      e = html.ErrNotFound
      /\ util.X_0 (attribute name n) = ""
      /\ Forall (fun b => xhtml.Key b <> name) (xhtml.Attr n)
  end.
Proof.
  unfold attribute.
  induction (xhtml.Attr n) as [|a attrs IH]; simpl.
  - repeat split. constructor.
  - destruct (String.eqb_spec (xhtml.Key a) name) as [E|E]; simpl.
    + exists [], a, attrs. repeat split; trivial.
    + destruct (find _ attrs) as [a'|]; simpl in *.
      * destruct IH as (pre & b & post & -> & Hpre & Hb & Hv).
        exists (a :: pre), b, post. repeat split; trivial.
        now constructor.
      * destruct IH as (He & Hv & Hall). repeat split; trivial.
        now constructor.
Qed.

(** X6: the first match wins, read off the attribute list.  Over a receiver
    whose sequence has the nodes [l], the full enumeration of
    [XGo_Attr name] pairs every node with one value: without an error, the
    value of an attribute with the key [name] before which no attribute of
    the node has that key; with the error NotFound and the empty string when
    no attribute of the node has that key.  An attribute that is there with
    an empty value is thus told from one that is missing. *)
Theorem XGo_Attr_first_match
  (d : Seq html.Node) (l : list html.Node) (name : string) :
  Produces d l ->
  exists vs,
    collect (html.ValueSet.Data
               (html.NodeSet.XGo_Attr (html.NodeSet.mk d None) name)) = Ok vs
    /\ Forall2
         (fun n v =>
            match util.X_1 v with
            | None =>
                exists pre a post,
                  xhtml.Attr n = pre ++ a :: post
                  /\ Forall (fun b => xhtml.Key b <> name) pre
                  /\ xhtml.Key a = name
                  /\ util.X_0 v = xhtml.Val a
            | Some e =>
                e = html.ErrNotFound
                /\ util.X_0 v = ""
                /\ Forall (fun b => xhtml.Key b <> name) (xhtml.Attr n)
            end) l vs.
Proof.
  intros H. exists (map (attribute name) l). split.
  - unfold collect. simpl. rewrite (H _ _ _).
    apply (feed_XGo_Attr_collect name l []).
  - clear H. induction l as [|n l' IH]; simpl; constructor.
    + apply attribute_first_match.
    + apply IH.
Qed.

Lemma XGo_Attr_first_match_witness :
  exists vs,
    collect (html.ValueSet.Data
               (html.NodeSet.XGo_Attr
                  (html.NodeSet.mk (fromList [node_i; node_a]) None) "id")) = Ok vs
    /\ List.length vs = 2.
Proof.
  destruct (@XGo_Attr_first_match (fromList [node_i; node_a]) [node_i; node_a]
              "id" (fun S yield s => eq_refl)) as [vs [E F]].
  exists vs. split; [exact E|].
  symmetry. exact (Forall2_length F).
Defined.

Lemma feed_XGo_Attr_XGo_0 (name : string) (l : list xhtml.Node) :
  forall st : string * option error,
  feed l (html.NodeSet.XGo_Attr_yield name html.ValueSet.XGo_0_yield) st
  = Ok (match find (has_attribute name) l with
        | Some n => of_value (attribute name n)
        | None => match l with
                  | [] => st
                  | _ :: _ => ("", Some html.ErrNotFound)
                  end
        end).
Proof.
  induction l as [|n l IH]; intros st; [reflexivity|].
  cbn [feed find]. unfold html.NodeSet.XGo_Attr_yield at 1.
  rewrite range_Attr_attribute.
  unfold html.ValueSet.XGo_0_yield at 1. cbn [bind].
  pose proof (attribute_has name n) as A.
  destruct (has_attribute name n).
  - unfold of_value. rewrite A. reflexivity.
  - rewrite A. cbn [util.X_1 util.X_0]. rewrite IH.
    destruct (find (has_attribute name) l); [reflexivity|].
    destruct l; reflexivity.
Qed.

(** X7: [XGo_0] after [XGo_Attr], as the code runs.  Over a receiver whose
    sequence has the nodes [l], [p.XGo_Attr(name).XGo_0()] returns the value
    of the attribute of the first node of [l] that has one with the key
    [name], and NotFound when no node of [l] has one: the answer [false] that
    [XGo_0] gives to the item of a node without the attribute does not end
    the iteration. *)
Theorem XGo_Attr_XGo_0_first_present
  (d : Seq html.Node) (l : list html.Node) (name : string) :
  Produces d l ->
  html.ValueSet.XGo_0 (html.NodeSet.XGo_Attr (html.NodeSet.mk d None) name)
  = Ok (match find (has_attribute name) l with
        | Some n => (util.X_0 (attribute name n), None)
        | None => ("", Some html.ErrNotFound)
        end).
Proof.
  intros H. unfold html.ValueSet.XGo_0. simpl.
  rewrite (H _ _ _), feed_XGo_Attr_XGo_0.
  destruct (find (has_attribute name) l) as [n|] eqn:F.
  - apply find_some in F. destruct F as [_ F].
    pose proof (attribute_has name n) as A. rewrite F in A.
    unfold of_value. now rewrite A.
  - destruct l; reflexivity.
Qed.

Lemma XGo_Attr_XGo_0_first_present_witness :
  html.ValueSet.XGo_0
    (html.NodeSet.XGo_Attr
       (html.NodeSet.mk (fromList [node_a; node_a; node_p; node_i]) None) "id")
  = Ok ("b", None).
Proof.
  apply (@XGo_Attr_XGo_0_first_present
           (fromList [node_a; node_a; node_p; node_i])
           [node_a; node_a; node_p; node_i] "id"
           (fun S yield s => eq_refl)).
Defined.

Lemma feed_XGo_Attr_XGo_1_done (name : string) (l : list xhtml.Node)
  (val : string) :
  feed l (html.NodeSet.XGo_Attr_yield name html.ValueSet.XGo_1_yield)
       (false, (val, Some html.ErrMultiEntities))
  = Ok (false, (val, Some html.ErrMultiEntities)).
Proof.
  induction l as [|n l IH]; [reflexivity|].
  cbn [feed]. unfold html.NodeSet.XGo_Attr_yield at 1.
  rewrite range_Attr_attribute. cbn.
  destruct (util.X_1 (attribute name n)); [exact IH|reflexivity].
Qed.

(** X8: [XGo_1] after [XGo_Attr] counts nodes, not attributes that are
    there.  Over a receiver whose sequence has the nodes [l],
    [p.XGo_Attr(name).XGo_1()] is NotFound for no node, what the one node
    gives for one node, and TooManyEntities for two or more nodes, whether
    or not any of them has the attribute. *)
Theorem XGo_Attr_XGo_1_counts_nodes
  (d : Seq html.Node) (l : list html.Node) (name : string) :
  Produces d l ->
  html.ValueSet.XGo_1 (html.NodeSet.XGo_Attr (html.NodeSet.mk d None) name)
  = Ok (first_and_unique ("", Some html.ErrNotFound) html.ErrMultiEntities
          of_value (map (attribute name) l)).
Proof.
  intros H. unfold html.ValueSet.XGo_1. simpl. rewrite (H _ _ _).
  destruct l as [|x [|y l]]; [reflexivity| |].
  - cbn [feed map]. unfold html.NodeSet.XGo_Attr_yield at 1.
    rewrite range_Attr_attribute.
    destruct (attribute name x) as [vx [ex|]]; reflexivity.
  - cbn [feed map]. unfold html.NodeSet.XGo_Attr_yield at 1.
    rewrite range_Attr_attribute.
    destruct (attribute name x) as [vx ex]. cbn [first_and_unique of_value fst].
    unfold html.ValueSet.XGo_1_yield at 1. cbn [bind util.X_0 util.X_1].
    replace (match ex with Some _ => true | None => true end) with true
      by (destruct ex; reflexivity).
    unfold html.NodeSet.XGo_Attr_yield at 1. rewrite range_Attr_attribute.
    unfold html.ValueSet.XGo_1_yield at 1. cbn [bind].
    destruct (util.X_1 (attribute name y)).
    + now rewrite feed_XGo_Attr_XGo_1_done.
    + reflexivity.
Qed.

Lemma XGo_Attr_XGo_1_counts_nodes_witness :
  html.ValueSet.XGo_1
    (html.NodeSet.XGo_Attr
       (html.NodeSet.mk (fromList [node_a; node_p; node_a]) None) "id")
  = Ok ("", Some html_ErrMultiEntities).
Proof.
  apply (@XGo_Attr_XGo_1_counts_nodes
           (fromList [node_a; node_p; node_a]) [node_a; node_p; node_a] "id"
           (fun S yield s => eq_refl)).
Defined.

Lemma feed_XGo_Attr_pure {S : Type} (name : string)
  (f : html.Value -> S -> bool * S) (l : list xhtml.Node) :
  forall (log : list html.Value) (s : S),
  exists s',
    feed l (html.NodeSet.XGo_Attr_yield name (logged (pure_yield f))) (log, s)
    = Ok (log ++ attr_delivered name l f s, s').
Proof.
  induction l as [|n l IH]; intros log s; cbn [feed attr_delivered].
  - exists s. now rewrite app_nil_r.
  - unfold html.NodeSet.XGo_Attr_yield at 1.
    rewrite range_Attr_attribute, logged_pure_yield. cbn [bind].
    pose proof (attribute_has name n) as A.
    destruct (f (attribute name n) s) as [continue s1]. cbn [fst snd].
    destruct (has_attribute name n).
    + rewrite A. rewrite orb_false_r. destruct continue.
      * destruct (IH (log ++ [attribute name n]) s1) as [s' E].
        exists s'. rewrite E, <- app_assoc. reflexivity.
      * exists s1. reflexivity.
    + replace (util.X_1 (attribute name n)) with (Some html.ErrNotFound)
        by (now rewrite A).
      cbn [negb]. rewrite orb_true_r.
      destruct (IH (log ++ [attribute name n]) s1) as [s' E].
      exists s'. rewrite E, <- app_assoc. reflexivity.
Qed.

(** X9: where the sequence of [XGo_Attr] stops.  Over a receiver whose
    sequence has the nodes [l], and for any callback of pure code, the
    callback is called with the values of the nodes of [l] in order, up to
    and with the first node that has the attribute and to whose value the
    callback answers [false]; what the callback answers to the NotFound
    value of a node without the attribute makes no difference. *)
Theorem XGo_Attr_stops_at_present_only
  (d : Seq html.Node) (l : list html.Node) (name : string)
  (S : Type) (f : html.Value -> S -> bool * S) (s : S) :
  Produces d l ->
  exists s',
    trace (html.ValueSet.Data
             (html.NodeSet.XGo_Attr (html.NodeSet.mk d None) name))
          (pure_yield f) s
    = Ok (attr_delivered name l f s, s').
Proof.
  intros H. unfold trace. simpl. rewrite (H _ _ _).
  apply (feed_XGo_Attr_pure name f l [] s).
Qed.

Lemma XGo_Attr_stops_at_present_only_witness :
  exists s',
    trace (html.ValueSet.Data
             (html.NodeSet.XGo_Attr
                (html.NodeSet.mk (fromList [node_a; node_p; node_i]) None) "id"))
          (pure_yield (fun (_ : html.Value) (s : unit) => (false, s))) tt
    = Ok ([util.mkValue "" (Some html_ErrNotFound); util.mkValue "b" None], s').
Proof.
  apply (@XGo_Attr_stops_at_present_only
           (fromList [node_a; node_p; node_i]) [node_a; node_p; node_i] "id"
           unit (fun _ s => (false, s)) tt (fun S yield s => eq_refl)).
Defined.

(* ------------------------------------------------------------------------- *)
(** ** The two reducers side by side *)

(** X10: [XGo_1] and [XGo_0] of the same node set.  Over a sequence with
    the nodes [l] both return the same node; they return the same error too,
    unless there are two or more nodes, where [XGo_1] reports
    TooManyEntities.  [XGo_1] has no error exactly when there is one node,
    and its result is then the result of [XGo_0]. *)
Theorem XGo_1_refines_XGo_0 (dn : Seq html.Node) (ln : list html.Node) :
  Produces dn ln ->
  exists n e0 e1,
    html.NodeSet.XGo_0 (html.NodeSet.mk dn None) = Ok (n, e0)
    /\ html.NodeSet.XGo_1 (html.NodeSet.mk dn None) = Ok (n, e1)
    /\ (e1 = e0 \/ (e1 = Some html.ErrMultiEntities /\ 2 <= List.length ln))
    /\ (e1 = None <-> List.length ln = 1).
Proof.
  intros Hn.
  unfold html.NodeSet.XGo_0, html.NodeSet.XGo_1. simpl.
  rewrite !(Hn _ _ _), feed_node_XGo_1_yield.
  destruct ln as [|x [|y ln]]; simpl.
  - exists None, (Some html.ErrNotFound), (Some html.ErrNotFound).
    repeat split; auto; discriminate.
  - exists (Some x), None, None. repeat split; auto.
  - exists (Some x), None, (Some html.ErrMultiEntities).
    repeat split; try discriminate. right. split; [reflexivity|lia].
Qed.

Lemma XGo_1_refines_XGo_0_witness :
  exists n e0 e1,
    html.NodeSet.XGo_0 (html.NodeSet.mk (fromList [node_p; node_a]) None) = Ok (n, e0)
    /\ html.NodeSet.XGo_1 (html.NodeSet.mk (fromList [node_p; node_a]) None) = Ok (n, e1)
    /\ (e1 = e0 \/ (e1 = Some html.ErrMultiEntities
                    /\ 2 <= List.length [node_p; node_a]))
    /\ (e1 = None <-> List.length [node_p; node_a] = 1).
Proof.
  apply (@XGo_1_refines_XGo_0 (fromList [node_p; node_a]) [node_p; node_a]
           (fun S yield s => eq_refl)).
Defined.

(* ------------------------------------------------------------------------- *)
(** ** Construction and reduction *)

Section Parsed.

Variable Reader : Type.
Variable html_Parse : Reader -> html.Node + error.
Variable stream_Open : string -> Reader + error.
Variable bytes_NewReader : list Byte.byte -> Reader.

(** X11: a set made by [New] reduces to the root or to the parser's
    error.  [XGo_0] and [XGo_1] of [New(r)] agree: they return the root
    without an error when the parse succeeds, and no node with the parser's
    error when it fails; neither ever reports NotFound or TooManyEntities of
    its own, and the nil sequence that a failed parse leaves in the set is
    not called.  The same holds for an opened location that [Source] is
    given. *)
Theorem New_reduces_to_root (r : Reader) (location : string) :
  html.NodeSet.XGo_0 (html.New html_Parse r)
  = Ok (match html_Parse r with
        | inl doc => (Some doc, None)
        | inr err => (None, Some err)
        end)
  /\ html.NodeSet.XGo_1 (html.New html_Parse r)
     = html.NodeSet.XGo_0 (html.New html_Parse r)
  /\ (ns <- html.Source html_Parse stream_Open bytes_NewReader
              (html.any_string location) ;;
      html.NodeSet.XGo_1 ns)
     = Ok (match stream_Open location with
           | inr err => (None, Some err)
           | inl f => match html_Parse f with
                      | inl doc => (Some doc, None)
                      | inr err => (None, Some err)
                      end
           end).
Proof.
  split; [|split].
  - unfold html.New. destruct (html_Parse r); reflexivity.
  - unfold html.New. destruct (html_Parse r); reflexivity.
  - simpl. destruct (stream_Open location) as [f|err]; [|reflexivity].
    simpl. unfold html.New. destruct (html_Parse f); reflexivity.
Qed.

(** X12: enumerating and sourcing again.  [Source(p.XGo_Enum())] of a set
    in the ok state is that set; of a set in the failed state it is an empty
    set in the ok state, whose reducers report NotFound: the terminal error
    is lost on this way, while [Source(p)] keeps it. *)
Theorem Source_of_XGo_Enum (d : Seq html.Node) (e : error) :
  html.Source html_Parse stream_Open bytes_NewReader
    (html.any_Seq (html.NodeSet.XGo_Enum (html.NodeSet.mk d None)))
  = Ok (html.NodeSet.mk d None)
  /\ (ns <- html.Source html_Parse stream_Open bytes_NewReader
              (html.any_Seq (html.NodeSet.XGo_Enum (html.NodeSet.mk d (Some e)))) ;;
      html.NodeSet.XGo_0 ns)
     = Ok (None, Some html.ErrNotFound)
  /\ (ns <- html.Source html_Parse stream_Open bytes_NewReader
              (html.any_Seq (html.NodeSet.XGo_Enum (html.NodeSet.mk d (Some e)))) ;;
      html.NodeSet.XGo_1 ns)
     = Ok (None, Some html.ErrNotFound)
  /\ (ns <- html.Source html_Parse stream_Open bytes_NewReader
              (html.any_NodeSet (html.NodeSet.mk d (Some e))) ;;
      html.NodeSet.XGo_0 ns)
     = Ok (None, Some e).
Proof. repeat split. Qed.

End Parsed.

Lemma Data_navigate_zero (q : navigation) :
  forall (S : Type) (yield : Yield html.Node S) (s : S),
  html.NodeSet.Data (navigate zero_NodeSet q) S yield s = Panic.
Proof.
  assert (E : forall q, html.NodeSet.Err (navigate zero_NodeSet q) = None).
  { intros q'. apply (proj1 (combinators_keep_Err_aux zero_NodeSet q')). }
  induction q as [|q IH name|q IH|q IH]; intros S yield s; simpl.
  - reflexivity.
  - unfold html.NodeSet.XGo_Node. rewrite E. simpl. apply IH.
  - unfold html.NodeSet.XGo_Child. rewrite E. simpl. now rewrite IH.
  - unfold html.NodeSet.XGo_Any. rewrite E. simpl. now rewrite IH.
Qed.

(** X13: the zero value [NodeSet{}] is not an empty set.  It has no error
    and a nil sequence: [XGo_0] and [XGo_1] panic on it, and so do they on
    the result of every chain of [XGo_Node], [XGo_Child] and [XGo_Any] over
    it and on the value set [XGo_Attr] makes of such a result, while making
    these results does not panic and leaves them in the ok state. *)
Theorem zero_NodeSet_panics (q : navigation) (name : string) :
  html.NodeSet.Err (navigate zero_NodeSet q) = None
  /\ html.NodeSet.XGo_0 (navigate zero_NodeSet q) = Panic
  /\ html.NodeSet.XGo_1 (navigate zero_NodeSet q) = Panic
  /\ html.ValueSet.XGo_0 (html.NodeSet.XGo_Attr (navigate zero_NodeSet q) name)
     = Panic
  /\ html.ValueSet.XGo_1 (html.NodeSet.XGo_Attr (navigate zero_NodeSet q) name)
     = Panic.
Proof.
  pose proof (proj1 (combinators_keep_Err_aux zero_NodeSet q)) as E.
  simpl in E.
  unfold html.NodeSet.XGo_0, html.NodeSet.XGo_1, html.ValueSet.XGo_0,
    html.ValueSet.XGo_1, html.NodeSet.XGo_Attr.
  rewrite E. simpl. rewrite !Data_navigate_zero. repeat split.
Qed.

(* ------------------------------------------------------------------------- *)
(** ** Descendants *)

Lemma in_descendants_trans (n : xhtml.Node) :
  forall k m, In k (descendants n) -> In m (descendants k) -> In m (descendants n).
Proof.
  induction n as [ty d a cs IH] using Node_ind'. intros k m Hk Hm.
  simpl in *. apply in_flat_map in Hk. destruct Hk as (c & Hc & Hk).
  apply in_flat_map. exists c. split; [exact Hc|]. right.
  rewrite Forall_forall in IH. destruct Hk as [<-|Hk]; [exact Hm|].
  apply (IH c Hc k m Hk Hm).
Qed.

Lemma in_self_and_descendants_trans (n k m : xhtml.Node) :
  In k (self_and_descendants n) -> In m (self_and_descendants k) ->
  In m (self_and_descendants n).
Proof.
  unfold self_and_descendants. simpl.
  intros [<-|Hk] [<-|Hm]; auto. right.
  apply (in_descendants_trans n k m Hk Hm).
Qed.

Lemma in_children_descendants (n c : xhtml.Node) :
  In c (xhtml.Children n) -> In c (descendants n).
Proof.
  destruct n as [ty d a cs]. simpl. intros H.
  apply in_flat_map. exists c. split; [exact H|now left].
Qed.

(** X14: [XGo_Any] twice finds nothing new.  Over a receiver whose sequence
    has the nodes [l], the items of [p.XGo_Any().XGo_Any()] are, as a set,
    the items of [p.XGo_Any()]; these include every node of [l] and every
    item of [p.XGo_Child()].  The second [XGo_Any] only repeats nodes: it
    has at least as many items. *)
Theorem XGo_Any_twice (d : Seq html.Node) (l : list html.Node) :
  Produces d l ->
  exists once twice,
    Produces (html.NodeSet.Data (html.NodeSet.XGo_Any (html.NodeSet.mk d None)))
             once
    /\ Produces (html.NodeSet.Data
                   (html.NodeSet.XGo_Any
                      (html.NodeSet.XGo_Any (html.NodeSet.mk d None))))
                twice
    /\ (forall m, In m twice <-> In m once)
    /\ incl l once
    /\ incl (flat_map xhtml.Children l) once
    /\ List.length once <= List.length twice.
Proof.
  intros H.
  exists (flat_map self_and_descendants l),
         (flat_map self_and_descendants (flat_map self_and_descendants l)).
  split; [now apply Produces_XGo_Any|].
  split; [apply (Produces_XGo_Any _ _ (Produces_XGo_Any d l H))|].
  split; [|split; [|split]].
  - intros m. rewrite !in_flat_map. split.
    + intros (k & Hk & Hm). apply in_flat_map in Hk. destruct Hk as (n & Hn & Hk).
      exists n. split; [exact Hn|].
      apply (in_self_and_descendants_trans n k m Hk Hm).
    + intros (n & Hn & Hm). exists m. split; [|now left].
      apply in_flat_map. exists n. auto.
  - intros n Hn. apply in_flat_map. exists n. split; [exact Hn|now left].
  - intros c Hc. apply in_flat_map in Hc. destruct Hc as (n & Hn & Hc).
    apply in_flat_map. exists n. split; [exact Hn|]. right.
    now apply in_children_descendants.
  - unfold html.Node in *.
    generalize (flat_map self_and_descendants l) as ns.
    induction ns as [|n ns IH]; [simpl; lia|].
    cbn [flat_map]. rewrite List.length_app.
    unfold self_and_descendants at 1. cbn [List.length]. lia.
Qed.

Lemma XGo_Any_twice_witness :
  exists once twice,
    Produces (html.NodeSet.Data
                (html.NodeSet.XGo_Any (html.NodeSet.mk (fromList [node_body]) None)))
             once
    /\ Produces (html.NodeSet.Data
                   (html.NodeSet.XGo_Any
                      (html.NodeSet.XGo_Any
                         (html.NodeSet.mk (fromList [node_body]) None))))
                twice
    /\ (forall m, In m twice <-> In m once)
    /\ incl [node_body] once
    /\ incl (flat_map xhtml.Children [node_body]) once
    /\ List.length once <= List.length twice.
Proof.
  apply (@XGo_Any_twice (fromList [node_body]) [node_body]
           (fun S yield s => eq_refl)).
Defined.

Lemma flat_map_flat_map {A B C : Type} (f : A -> list B) (g : B -> list C)
  (l : list A) :
  flat_map g (flat_map f l) = flat_map (fun x => flat_map g (f x)) l.
Proof.
  induction l as [|x l IH]; simpl; [reflexivity|].
  now rewrite flat_map_app, IH.
Qed.

Lemma Permutation_flat_map_pointwise {A B : Type} (f g : A -> list B)
  (l : list A) :
  Forall (fun x => Permutation (f x) (g x)) l ->
  Permutation (flat_map f l) (flat_map g l).
Proof.
  induction 1 as [|x l Hx _ IH]; simpl; [constructor|].
  now apply Permutation_app.
Qed.

Lemma Permutation_children_of_tree (n : xhtml.Node) :
  Permutation (flat_map xhtml.Children (self_and_descendants n)) (descendants n).
Proof.
  induction n as [ty d a cs IH] using Node_ind'.
  unfold self_and_descendants. cbn [flat_map xhtml.Children descendants].
  rewrite flat_map_flat_map.
  induction IH as [|c cs Hc _ IHcs]; [constructor|].
  cbn [flat_map]. rewrite <- !app_comm_cons. constructor.
  rewrite app_assoc.
  transitivity ((flat_map xhtml.Children (self_and_descendants c) ++ cs)
                ++ flat_map (fun x => flat_map xhtml.Children (self_and_descendants x)) cs).
  - apply Permutation_app_tail, Permutation_app_comm.
  - rewrite <- app_assoc. now apply Permutation_app.
Qed.

(** X15: [p.XGo_Any().XGo_Child()] gives the proper descendants.  Over a
    receiver whose sequence has the nodes [l], its items are the descendants
    of the nodes of [l], each as often as document order lists it, but in
    another order: the children of a node come together, before the
    children of its first child. *)
Theorem XGo_Any_XGo_Child_descendants (d : Seq html.Node) (l : list html.Node) :
  Produces d l ->
  exists items,
    Produces (html.NodeSet.Data
                (html.NodeSet.XGo_Child
                   (html.NodeSet.XGo_Any (html.NodeSet.mk d None))))
             items
    /\ Permutation items (flat_map descendants l)
    /\ List.length items = list_sum (map size l) - List.length l.
Proof.
  intros H. unfold html.Node in *.
  exists (flat_map xhtml.Children (flat_map self_and_descendants l)).
  split; [apply (Produces_XGo_Child _ _ (Produces_XGo_Any d l H))|].
  assert (P : Permutation
                (flat_map xhtml.Children (flat_map self_and_descendants l))
                (flat_map descendants l)).
  { rewrite flat_map_flat_map. apply Permutation_flat_map_pointwise.
    apply Forall_forall. intros n _. apply Permutation_children_of_tree. }
  split; [exact P|].
  rewrite (Permutation_length P).
  clear. induction l as [|n l IH]; [reflexivity|].
  cbn [flat_map map list_sum]. rewrite List.length_app, IH.
  pose proof (length_descendants n) as E. unfold self_and_descendants in E.
  simpl in E.
  assert (L : List.length l <= list_sum (map size l)).
  { clear. induction l as [|m l IH]; simpl; [lia|].
    pose proof (length_descendants m). unfold self_and_descendants in *.
    simpl in *. lia. }
  simpl. lia.
Qed.

Lemma XGo_Any_XGo_Child_descendants_witness :
  exists items,
    Produces (html.NodeSet.Data
                (html.NodeSet.XGo_Child
                   (html.NodeSet.XGo_Any
                      (html.NodeSet.mk (fromList [node_body]) None))))
             items
    /\ Permutation items (flat_map descendants [node_body])
    /\ List.length items = list_sum (map size [node_body]) - List.length [node_body].
Proof.
  apply (@XGo_Any_XGo_Child_descendants (fromList [node_body]) [node_body]
           (fun S yield s => eq_refl)).
Defined.

(* ------------------------------------------------------------------------- *)
(** ** Reducing early *)

Lemma feedb_node_XGo_0_yield (l : list html.Node)
  (st : option html.Node * option error) :
  feedb l html.NodeSet.XGo_0_yield st
  = Ok (match l with
        | [] => (true, st)
        | n :: _ => (false, (Some n, None))
        end).
Proof. destruct l; reflexivity. Qed.

(** X16: [XGo_0] after [XGo_Any] is [XGo_0].  Over a receiver whose
    sequence keeps the contract, in the ok or in the failed state,
    [p.XGo_Any().XGo_0()] returns what [p.XGo_0()] returns, and in the ok
    state the closure of [XGo_0] is called with the first node of the
    receiver only: no descendant is visited. *)
Theorem XGo_Any_XGo_0 (d : Seq html.Node) (l : list html.Node) :
  Produces d l ->
  (forall e : option error,
     html.NodeSet.XGo_0 (html.NodeSet.XGo_Any (html.NodeSet.mk d e))
     = html.NodeSet.XGo_0 (html.NodeSet.mk d e))
  /\ exists st,
       trace (html.NodeSet.Data (html.NodeSet.XGo_Any (html.NodeSet.mk d None)))
             html.NodeSet.XGo_0_yield (None, Some html.ErrNotFound)
       = Ok (firstn 1 l, st).
Proof.
  intros H. pose proof (Produces_XGo_Any d l H) as P. split.
  - intros [e|]; [reflexivity|].
    unfold html.NodeSet.XGo_0 at 1.
    change (html.NodeSet.Err _) with (@None error). cbv iota.
    rewrite (P _ _ _). unfold html.NodeSet.XGo_0. simpl. rewrite (H _ _ _).
    destruct l; reflexivity.
  - unfold trace. rewrite (P _ _ _). destruct l; eexists; reflexivity.
Qed.

Lemma XGo_Any_XGo_0_witness :
  html.NodeSet.XGo_0
    (html.NodeSet.XGo_Any (html.NodeSet.mk (fromList [node_body; node_a]) None))
  = html.NodeSet.XGo_0 (html.NodeSet.mk (fromList [node_body; node_a]) None).
Proof.
  apply (proj1 (@XGo_Any_XGo_0 (fromList [node_body; node_a]) [node_body; node_a]
                  (fun S yield s => eq_refl)) None).
Defined.

Lemma run_panics_after {T S : Type} (l : list T) (yield : Yield T S) (s : S) :
  panics_after l S yield s
  = ('(continue, s1) <- feedb l yield s ;; if continue : bool then Panic else Ok s1).
Proof. reflexivity. Qed.

(** X17: the reducers ask the sequence for no more than they need.  Over a
    sequence that calls [yield] with the nodes [l] and panics when it is told
    to continue after the last of them: [XGo_0] returns the first node
    without a panic as soon as there is one, also behind [XGo_Node],
    [XGo_Child] and [XGo_Any], where the first item of the combinator has to
    exist; [XGo_1] returns TooManyEntities without a panic as soon as there
    are two nodes.  With fewer items the sequence is run to its end, and
    the panic comes out. *)
Theorem reducers_stop_the_sequence (l : list html.Node) (name : string) :
  html.NodeSet.XGo_0 (html.NodeSet.mk (panics_after l) None)
  = match l with
    | n :: _ => Ok (Some n, None)
    | [] => Panic
    end
  /\ html.NodeSet.XGo_1 (html.NodeSet.mk (panics_after l) None)
     = match l with
       | n :: _ :: _ => Ok (Some n, Some html.ErrMultiEntities)
       | _ => Panic
       end
  /\ html.NodeSet.XGo_0
       (html.NodeSet.XGo_Node (html.NodeSet.mk (panics_after l) None) name)
     = match filter (is_element name) l with
       | n :: _ => Ok (Some n, None)
       | [] => Panic
       end
  /\ html.NodeSet.XGo_0
       (html.NodeSet.XGo_Child (html.NodeSet.mk (panics_after l) None))
     = match flat_map xhtml.Children l with
       | c :: _ => Ok (Some c, None)
       | [] => Panic
       end
  /\ html.NodeSet.XGo_0
       (html.NodeSet.XGo_Any (html.NodeSet.mk (panics_after l) None))
     = match l with
       | n :: _ => Ok (Some n, None)
       | [] => Panic
       end.
Proof.
  unfold html.NodeSet.XGo_0, html.NodeSet.XGo_1. simpl.
  rewrite !run_panics_after.
  split; [destruct l; reflexivity|].
  split; [destruct l as [|x [|y l]]; reflexivity|].
  split; [|split].
  - rewrite feedb_XGo_Node_yield, feedb_node_XGo_0_yield.
    destruct (filter (is_element name) l); reflexivity.
  - rewrite feedb_XGo_Child_yield, feedb_node_XGo_0_yield.
    destruct (flat_map xhtml.Children l); reflexivity.
  - rewrite feedb_XGo_Any_yield, feedb_node_XGo_0_yield.
    destruct l; reflexivity.
Qed.
